(** * Omarchy theme colour extractor: a shallow embedding of
      [theme-sync/extract-omarchy-colors.py] and its properties.

    Python [str] values are modelled as [string]; a character is a code
    point below 256.  Dictionaries that are only looked up and filled
    ([normal_colors], [bright_colors], [primary_colors]) are finite maps;
    dictionaries whose order is observable (the [colors] of a result, the
    objects of a parsed JSON document) are association lists.  File
    contents are the text Python hands to the program after opening the
    file in text mode. *)

From Stdlib Require Import Ascii String Bool Arith Lia.
From stdpp Require Import base option list strings gmap.

(** ** Characters and literals *)

Module Chr.
Definition nl : ascii := "010"%char.
Definition dquote : ascii := "034"%char.
Definition squote : ascii := "039"%char.
Definition eq_sign : ascii := "="%char.
Definition dot : ascii := "."%char.
Definition hash : ascii := "#"%char.
Definition lbracket : ascii := "["%char.
End Chr.

(** The one-character strings used to build lines. *)
Definition NL : string := String Chr.nl "".
Definition DQ : string := String Chr.dquote "".

(** ** Python string primitives *)

Module PyStr.

(** [str.isspace] on one character, for code points below 256: the
    same class is what [\s] matches in a [str] pattern. *)
Definition is_space (c : ascii) : bool :=
  match c with
  | "009" | "010" | "011" | "012" | "013"
  | "028" | "029" | "030" | "031" | " "
  | "133" | "160" => true
  | _ => false
  end%char.

(** The class [[a-fA-F0-9]]. *)
Definition is_hex (c : ascii) : bool :=
  match c with
  | "0" | "1" | "2" | "3" | "4" | "5" | "6" | "7" | "8" | "9"
  | "a" | "b" | "c" | "d" | "e" | "f"
  | "A" | "B" | "C" | "D" | "E" | "F" => true
  | _ => false
  end%char.

Definition is_quote (c : ascii) : bool :=
  Ascii.eqb c Chr.dquote || Ascii.eqb c Chr.squote.

(** [s.startswith(p)] *)
Fixpoint startswith (s p : string) : bool :=
  match p, s with
  | EmptyString, _ => true
  | String _ _, EmptyString => false
  | String a p', String b s' => Ascii.eqb a b && startswith s' p'
  end.

(** [p in s] for strings *)
Fixpoint contains (p s : string) : bool :=
  startswith s p ||
  match s with
  | EmptyString => false
  | String _ s' => contains p s'
  end.

(** [s.endswith(p)] for a one-character [p] *)
Fixpoint ends_with_char (s : string) (c : ascii) : bool :=
  match s with
  | EmptyString => false
  | String a EmptyString => Ascii.eqb a c
  | String _ s' => ends_with_char s' c
  end.

(** Removal of the leading characters satisfying [f]. *)
Fixpoint ltrim (f : ascii → bool) (s : string) : string :=
  match s with
  | EmptyString => EmptyString
  | String c s' => if f c then ltrim f s' else s
  end.

(** Removal of the trailing characters satisfying [f]. *)
Fixpoint rtrim (f : ascii → bool) (s : string) : string :=
  match s with
  | EmptyString => EmptyString
  | String c s' =>
      match rtrim f s' with
      | EmptyString => if f c then EmptyString else String c EmptyString
      | r => String c r
      end
  end.

(** [s.strip()] *)
Definition strip (s : string) : string := rtrim is_space (ltrim is_space s).

(** [s.strip(q)] with [q] the two quote characters *)
Definition strip_quotes (s : string) : string :=
  rtrim is_quote (ltrim is_quote s).

(** [s.split(sep)] for a one-character separator: never empty. *)
Fixpoint split (sep : ascii) (s : string) : list string :=
  match s with
  | EmptyString => [EmptyString]
  | String c s' =>
      if Ascii.eqb c sep then EmptyString :: split sep s'
      else match split sep s' with
           | h :: t => String c h :: t
           | [] => [String c EmptyString]
           end
  end.

(** [s.split(sep, 1)] when [sep] occurs in [s]: the text before the
    first separator and the text after it. *)
Fixpoint split1 (sep : ascii) (s : string) : option (string * string) :=
  match s with
  | EmptyString => None
  | String c s' =>
      if Ascii.eqb c sep then Some (EmptyString, s')
      else match split1 sep s' with
           | Some (k, v) => Some (String c k, v)
           | None => None
           end
  end.

(** [f.readlines()]: the lines with their terminator; the last line has
    none when the text does not end with a newline. *)
Fixpoint readlines (s : string) : list string :=
  match s with
  | EmptyString => []
  | String c s' =>
      if Ascii.eqb c Chr.nl then String c EmptyString :: readlines s'
      else match readlines s' with
           | h :: t => String c h :: t
           | [] => [String c EmptyString]
           end
  end.

(** [f.writelines(l)]: the items written one after the other. *)
Fixpoint writelines (l : list string) : string :=
  match l with
  | [] => EmptyString
  | x :: r => x +:+ writelines r
  end.

End PyStr.

(** ** The regular expressions of the program *)

Module Re.
Import PyStr.

(** [[a-fA-F0-9]{6}] at the start of [s]: the six digits. *)
Definition hex6 (s : string) : option string :=
  match s with
  | String a (String b (String c (String d (String e (String f _))))) =>
      if is_hex a && is_hex b && is_hex c && is_hex d && is_hex e && is_hex f
      then Some (String a (String b (String c (String d (String e (String f ""))))))
      else None
  | _ => None
  end.

(** [(?:#|0x)([a-fA-F0-9]{6})] matched at the start of [s]: group 1. *)
Definition color_at (s : string) : option string :=
  match s with
  | String "#" r => hex6 r
  | String "0" (String "x" r) => hex6 r
  | _ => None
  end.

(** [re.search(r'(?:#|0x)([a-fA-F0-9]{6})', s).group(1)]: the leftmost
    match. *)
Fixpoint search_color (s : string) : option string :=
  match color_at s with
  | Some g => Some g
  | None =>
      match s with
      | EmptyString => None
      | String _ s' => search_color s'
      end
  end.

(** The literal [lit] at the start of [s]: the rest of [s]. *)
Fixpoint literal (lit s : string) : option string :=
  match lit, s with
  | EmptyString, _ => Some s
  | String _ _, EmptyString => None
  | String a lit', String b s' =>
      if Ascii.eqb a b then literal lit' s' else None
  end.

(** [Q?(?:#|0x)([a-fA-F0-9]{6})], [Q] the class of the two quote
    characters: the optional quote is tried
    first and given back when the colour does not follow it. *)
Definition quoted_color_at (s : string) : option string :=
  match s with
  | String q r =>
      if is_quote q then
        match color_at r with
        | Some g => Some g
        | None => color_at s
        end
      else color_at s
  | EmptyString => None
  end.

(** [field\s*=\s*Q?(?:#|0x)([a-fA-F0-9]{6})Q?] matched at the
    start of [s].  Each [\s*] takes all the white space there is: what
    follows it ([=], a quote, [#] or [0]) is no white space, so giving
    some back cannot make the match succeed.  The trailing optional
    quote does not change group 1. *)
Definition field_at (field s : string) : option string :=
  match literal field s with
  | None => None
  | Some r1 =>
      match ltrim is_space r1 with
      | String c r2 =>
          if Ascii.eqb c Chr.eq_sign
          then quoted_color_at (ltrim is_space r2)
          else None
      | EmptyString => None
      end
  end.

(** [re.search(pattern_of field, s).group(1)] *)
Fixpoint search_field (field s : string) : option string :=
  match field_at field s with
  | Some g => Some g
  | None =>
      match s with
      | EmptyString => None
      | String _ s' => search_field field s'
      end
  end.

End Re.

(** ** Files as the program sees them *)

(** A text file: absent, present but failing [open]/[read], or readable
    with the given text. *)
Inductive text_file :=
| Missing
| Unreadable
| Content (text : string).

(** ** [parse_toml_colors] *)

Inductive section_state := SecNone | SecNormal | SecBright | SecPrimary | SecOther.

Record scan_state := ScanState {
  normal_colors : gmap string string;
  bright_colors : gmap string string;
  primary_colors : gmap string string;
  current_section : section_state
}.

Definition scan_init : scan_state :=
  ScanState ∅ ∅ ∅ SecNone.

Definition set_section (st : scan_state) (sec : section_state) : scan_state :=
  ScanState (normal_colors st) (bright_colors st) (primary_colors st) sec.

(** [key.split('.')[-1] if '.' in key else key] *)
Definition color_name_of (key : string) : string :=
  if PyStr.contains "." key then List.last (PyStr.split Chr.dot key) EmptyString
  else key.

(** The store at the end of the loop body. *)
Definition store_color (st : scan_state) (name clean : string) : scan_state :=
  match current_section st with
  | SecNormal =>
      ScanState (<[name := clean]> (normal_colors st)) (bright_colors st)
                (primary_colors st) SecNormal
  | SecBright =>
      ScanState (normal_colors st) (<[name := clean]> (bright_colors st))
                (primary_colors st) SecBright
  | SecPrimary =>
      ScanState (normal_colors st) (bright_colors st)
                (<[name := clean]> (primary_colors st)) SecPrimary
  | _ => st
  end.

(** One iteration of the loop over [content.split('\n')]. *)
Definition scan_line (st : scan_state) (raw : string) : scan_state :=
  let line := PyStr.strip raw in
  if PyStr.startswith line "[colors.normal]" then set_section st SecNormal
  else if PyStr.startswith line "[colors.bright]" then set_section st SecBright
  else if PyStr.startswith line "[colors.primary]" then set_section st SecPrimary
  else if PyStr.startswith line "[" && negb (PyStr.contains "colors" line)
  then set_section st SecNone
  else if PyStr.startswith line "[colors." then set_section st SecOther
  else if PyStr.startswith line "#" then st
  else if PyStr.contains "=" line
          && (PyStr.contains "0x" line || PyStr.contains "#" line)
  then
    match PyStr.split1 Chr.eq_sign line with
    | Some (key, value) =>
        let key := PyStr.strip key in
        let value := PyStr.strip_quotes (PyStr.strip value) in
        match Re.search_color value with
        | Some digits => store_color st (color_name_of key) ("#" +:+ digits)
        | None => st
        end
    | None => st
    end
  else st.

Definition scan_content (content : string) : scan_state :=
  foldl scan_line scan_init (PyStr.split Chr.nl content).

Definition canonical_names : list string :=
  ["red"; "green"; "yellow"; "blue"; "magenta"; "cyan"].

(** [if color_name not in colors and color_name in bright_colors:
       colors[color_name] = bright_colors[color_name]] *)
Definition fill_from_bright (bright colors : gmap string string)
    (color_name : string) : gmap string string :=
  match colors !! color_name, bright !! color_name with
  | None, Some v => <[color_name := v]> colors
  | _, _ => colors
  end.

Definition merge_colors (normal bright : gmap string string) : gmap string string :=
  foldl (fill_from_bright bright) normal canonical_names.

(** The three maps at the end of the [try] block: a file that cannot be
    opened or read raises before anything is stored, and the handler
    leaves the maps empty. *)
Definition scan_file (f : text_file) : scan_state :=
  match f with
  | Content content => scan_content content
  | _ => scan_init
  end.

Definition parse_toml_colors (f : text_file)
  : gmap string string * gmap string string :=
  let st := scan_file f in
  (merge_colors (normal_colors st) (bright_colors st), primary_colors st).

(** ** Exceptions *)

(** The exceptions the modelled code can raise. *)
Inductive exn := KeyError | TypeError | AttributeError | OSError.

(** A computation returns a value or raises. *)
Inductive outcome (A : Type) :=
| Return (a : A)
| Raise (e : exn).
Arguments Return {A} a.
Arguments Raise {A} e.

Definition bind {A B} (c : outcome A) (k : A → outcome B) : outcome B :=
  match c with
  | Return a => k a
  | Raise e => Raise e
  end.

Notation "'let!' x := c 'in' k" := (bind c (fun x => k))
  (at level 10, x name, c at level 100, k at level 200).

(** ** Parsed JSON documents *)

Set Warnings "-register-all".

(** What [json.load] returns.  A number carries its literal; an object
    is the [dict] built from it, one binding per key. *)
Inductive json :=
| JNull
| JBool (b : bool)
| JNumber (literal : string)
| JStr (s : string)
| JArr (items : list json)
| JObj (fields : list (string * json)).

Module Json.

Definition is_str (s : string) (v : json) : bool :=
  match v with
  | JStr t => String.eqb s t
  | _ => false
  end.

Fixpoint assoc (k : string) (fields : list (string * json)) : option json :=
  match fields with
  | [] => None
  | (k', v) :: rest => if String.eqb k k' then Some v else assoc k rest
  end.

(** [k in v]: key membership for a dict, element membership for a
    list, substring for a string; other values are not iterable. *)
Definition contains (k : string) (v : json) : outcome bool :=
  match v with
  | JObj fields => Return (bool_decide (is_Some (assoc k fields)))
  | JArr items => Return (existsb (is_str k) items)
  | JStr s => Return (PyStr.contains k s)
  | _ => Raise TypeError
  end.

(** [v[k]] for a string [k]. *)
Definition getitem (v : json) (k : string) : outcome json :=
  match v with
  | JObj fields =>
      match assoc k fields with
      | Some x => Return x
      | None => Raise KeyError
      end
  | _ => Raise TypeError
  end.

(** [v.get(k, default)]: only a dict has the method. *)
Definition get (v : json) (k : string) (dflt : json) : outcome json :=
  match v with
  | JObj fields => Return (default dflt (assoc k fields))
  | _ => Raise AttributeError
  end.

(** [a in v and b in v[a]] *)
Definition has_path (v : json) (a b : string) : outcome bool :=
  let! ina := contains a v in
  if ina then (let! va := getitem v a in contains b va) else Return false.

End Json.

(** [custom_theme.json]: absent, present but failing [open]/[read],
    present with text [json.load] rejects, or parsed. *)
Inductive json_file :=
| JsonMissing
| JsonUnreadable
| JsonInvalid
| JsonParsed (theme_data : json).

(** ** [extract_theme_colors] *)

(** The dictionary the function returns; [V] is the type of the colour
    values ([json] for what comes out of the extraction). *)
Record theme_data (V : Type) := ThemeData {
  theme_name : string;
  colors : list (string * V);
  background : V;
  foreground : V
}.
Arguments ThemeData {V} _ _ _ _.
Arguments theme_name {V} _.
Arguments colors {V} _.
Arguments background {V} _.
Arguments foreground {V} _.

Definition role_names : list string :=
  ["accent"; "primary"; "secondary"; "success"; "warning"; "error"].

(** The dictionary literal both branches of the structured path build. *)
Definition roles_of_json (m : json) : outcome (list (string * json)) :=
  let! accent := Json.get m "blue" (JStr "#38d6fa") in
  let! primary := Json.get m "cyan" (JStr "#048ba8") in
  let! secondary := Json.get m "magenta" (JStr "#d35f5f") in
  let! success := Json.get m "green" (JStr "#a9fbd7") in
  let! warning := Json.get m "yellow" (JStr "#9f87af") in
  let! error := Json.get m "red" (JStr "#9c528b") in
  Return [("accent", accent); ("primary", primary); ("secondary", secondary);
          ("success", success); ("warning", warning); ("error", error)].

(** [colors = {}] and the [if]/[elif] that follows. *)
Definition structured_colors (td : json) : outcome (list (string * json)) :=
  let! t := Json.has_path td "colors" "terminal" in
  if t then
    let! c := Json.getitem td "colors" in
    let! terminal_colors := Json.getitem c "terminal" in
    roles_of_json terminal_colors
  else
    let! a := Json.has_path td "apps" "alacritty" in
    if a then
      let! apps := Json.getitem td "apps" in
      let! al := Json.getitem apps "alacritty" in
      let! cs := Json.getitem al "colors" in
      let! alacritty_colors := Json.getitem cs "normal" in
      roles_of_json alacritty_colors
    else Return [].

(** Background and foreground of the structured path. *)
Definition structured_grounds (td : json) : outcome (json * json) :=
  let background := JStr "#000000" in
  let foreground := JStr "#ffffff" in
  let! p := Json.has_path td "colors" "primary" in
  if p then
    let! c := Json.getitem td "colors" in
    let! pr := Json.getitem c "primary" in
    let! bg := Json.get pr "background" background in
    let! c' := Json.getitem td "colors" in
    let! pr' := Json.getitem c' "primary" in
    let! fg := Json.get pr' "foreground" foreground in
    Return (bg, fg)
  else
    let! a := Json.has_path td "apps" "alacritty" in
    if a then
      let! apps := Json.getitem td "apps" in
      let! al := Json.getitem apps "alacritty" in
      let! cs := Json.getitem al "colors" in
      let! primary := Json.getitem cs "primary" in
      let! bg := Json.get primary "background" background in
      let! fg := Json.get primary "foreground" foreground in
      Return (bg, fg)
    else Return (background, foreground).

(** The body of the [try] once [json.load] has returned. *)
Definition structured_extract (name : string) (td : json)
  : outcome (theme_data json) :=
  let! cols := structured_colors td in
  let! g := structured_grounds td in
  Return (ThemeData name cols (fst g) (snd g)).

(** The grayscale scheme; the foreground found in the file is only
    printed. *)
Definition monochrome_colors (foreground : string) : list (string * json) :=
  [("accent", JStr "#777777"); ("primary", JStr "#999999");
   ("secondary", JStr "#BBBBBB"); ("success", JStr "#AAAAAA");
   ("warning", JStr "#888888"); ("error", JStr "#666666")].

(** [d.get(k, default)] on a colour map. *)
Definition map_get (d : gmap string string) (k dflt : string) : string :=
  default dflt (d !! k).

Definition mapped_colors (toml_colors : gmap string string)
  : list (string * json) :=
  [("accent", JStr (map_get toml_colors "blue" "#6272a4"));
   ("primary", JStr (map_get toml_colors "cyan" "#8be9fd"));
   ("secondary", JStr (map_get toml_colors "magenta" "#ff79c6"));
   ("success", JStr (map_get toml_colors "green" "#50fa7b"));
   ("warning", JStr (map_get toml_colors "yellow" "#f1fa8c"));
   ("error", JStr (map_get toml_colors "red" "#ff5555"))].

(** A second read of [alacritty.toml] followed by one pattern search;
    a failing read is swallowed by the bare [except] and leaves the
    current value. *)
Definition rescan (f : text_file) (field current : string) : string :=
  match f with
  | Content content =>
      match Re.search_field field content with
      | Some digits => "#" +:+ digits
      | None => current
      end
  | _ => current
  end.

(** The foreground the monochrome branch looks up for its message. *)
Definition monochrome_foreground (f : text_file) : string :=
  rescan f "foreground" "#EFEFEF".

Definition is_empty_map (d : gmap string string) : bool :=
  bool_decide (d = ∅).

(** The [try] block of the line-oriented path, [alacritty.toml] present. *)
Definition line_extract (name : string) (f : text_file) : theme_data json :=
  let '(toml_colors, primary_colors) := parse_toml_colors f in
  let colors :=
    if is_empty_map toml_colors
    then monochrome_colors (monochrome_foreground f)
    else mapped_colors toml_colors in
  let background := map_get primary_colors "background" "#282a36" in
  let foreground := map_get primary_colors "foreground" "#f8f8f2" in
  let background :=
    if is_empty_map primary_colors then rescan f "background" background
    else background in
  let foreground :=
    if is_empty_map primary_colors then rescan f "foreground" foreground
    else foreground in
  ThemeData name colors (JStr background) (JStr foreground).

(** The fallback after the structured path gave nothing. *)
Definition toml_fallback (name : string) (toml : text_file)
  : outcome (option (theme_data json)) :=
  match toml with
  | Missing => Return None
  | _ => Return (Some (line_extract name toml))
  end.

(** [extract_theme_colors(theme_path)], the theme directory given by its
    name and its two files.  [None] is Python's [None]; an exception no
    handler of the function catches leaves it. *)
Definition extract_theme_colors (name : string) (jf : json_file)
    (toml : text_file) : outcome (option (theme_data json)) :=
  match jf with
  | JsonMissing => toml_fallback name toml
  | JsonUnreadable => Raise OSError
  | JsonInvalid => toml_fallback name toml
  | JsonParsed td =>
      match structured_extract name td with
      | Return r => Return (Some r)
      | Raise KeyError => toml_fallback name toml
      | Raise e => Raise e
      end
  end.

(** ** [generate_navitone_config] *)

(** The value under the key [theme] of the configuration dictionary. *)
Module Theme.
Record t (V : Type) := Make {
  name : string;
  source : string;
  colors : list (string * V);
  background : V;
  foreground : V
}.
Arguments Make {V} _ _ _ _ _.
Arguments name {V} _.
Arguments source {V} _.
Arguments colors {V} _.
Arguments background {V} _.
Arguments foreground {V} _.
End Theme.

Definition generate_navitone_config {V} (td : theme_data V) : Theme.t V :=
  Theme.Make ("omarchy-" +:+ theme_name td) "omarchy"
             (colors td) (background td) (foreground td).

(** ** [update_navitone_config] *)

Definition is_theme_header (line_stripped : string) : bool :=
  String.eqb line_stripped "[theme]" || PyStr.startswith line_stripped "[theme.".

Definition leaves_theme (line_stripped : string) : bool :=
  PyStr.startswith line_stripped "[" && negb (PyStr.startswith line_stripped "[theme").

Record removal_state := RemovalState {
  new_lines : list string;
  skip_theme_section : bool
}.

(** One iteration of the loop over the lines of the file. *)
Definition removal_step (st : removal_state) (line : string) : removal_state :=
  let line_stripped := PyStr.strip line in
  if is_theme_header line_stripped then RemovalState (new_lines st) true
  else
    let skip :=
      if skip_theme_section st && leaves_theme line_stripped then false
      else skip_theme_section st in
    if skip then RemovalState (new_lines st) skip
    else RemovalState (new_lines st ++ [line]) skip.

Definition removal_pass (lines : list string) : removal_state :=
  foldl removal_step (RemovalState [] false) lines.

(** [if new_lines and not new_lines[-1].endswith(newline):
       new_lines.append(newline)] *)
Definition terminate_last (new_lines : list string) : list string :=
  match last new_lines with
  | Some l => if PyStr.ends_with_char l Chr.nl then new_lines else new_lines ++ [NL]
  | None => new_lines
  end.

(** [key = "value"] followed by a newline, as the f-strings write it
    for a [str] value. *)
Definition assignment (key value : string) : string :=
  key +:+ " = " +:+ DQ +:+ value +:+ DQ +:+ NL.

(** The items appended after the kept lines. *)
Definition theme_block (theme : Theme.t string) : list string :=
  [NL +:+ "[theme]" +:+ NL;
   assignment "name" (Theme.name theme);
   assignment "source" (Theme.source theme);
   NL +:+ "[theme.colors]" +:+ NL]
  ++ map (λ kv, assignment (fst kv) (snd kv)) (Theme.colors theme)
  ++ [assignment "background" (Theme.background theme);
      assignment "foreground" (Theme.foreground theme);
      NL].

(** The list handed to [writelines]. *)
Definition merged_lines (theme : Theme.t string) (lines : list string)
  : list string :=
  terminate_last (new_lines (removal_pass lines)) ++ theme_block theme.

(** The text written back for a destination holding [text]. *)
Definition merge_text (theme : Theme.t string) (text : string) : string :=
  PyStr.writelines (merged_lines theme (PyStr.readlines text)).


(** ** Notions the properties are stated with *)

(** A colour in the program's normal form: [#] and six hexadecimal
    digits, nothing more. *)
Definition is_hex_color (s : string) : bool :=
  match s with
  | String c r => Ascii.eqb c Chr.hash && bool_decide (Re.hex6 r = Some r)
  | EmptyString => false
  end.

Definition is_color_value (v : json) : bool :=
  match v with
  | JStr s => is_hex_color s
  | _ => false
  end.

Definition is_string_value (v : json) : bool :=
  match v with
  | JStr _ => true
  | _ => false
  end.

(** The value a result holds for a role. *)
Definition role_value (r : theme_data json) (role : string) : option json :=
  Json.assoc role (colors r).

(** All 8 roles hold a string. *)
Definition fully_populated (r : theme_data json) : bool :=
  forallb (λ role, from_option is_string_value false (role_value r role)) role_names
  && is_string_value (background r) && is_string_value (foreground r).

(** All 8 roles hold a colour in normal form, the 6 named ones in the
    order of the program. *)
Definition holds_colors (r : theme_data json) : Prop :=
  map fst (colors r) = role_names
  ∧ Forall (λ kv, is_color_value (snd kv) = true) (colors r)
  ∧ is_color_value (background r) = true
  ∧ is_color_value (foreground r) = true.

(** The per-role constants of the structured path. *)
Definition structured_fallback : list (string * json) :=
  [("accent", JStr "#38d6fa"); ("primary", JStr "#048ba8");
   ("secondary", JStr "#d35f5f"); ("success", JStr "#a9fbd7");
   ("warning", JStr "#9f87af"); ("error", JStr "#9c528b")].

Definition grayscale : list (string * json) :=
  [("accent", JStr "#777777"); ("primary", JStr "#999999");
   ("secondary", JStr "#BBBBBB"); ("success", JStr "#AAAAAA");
   ("warning", JStr "#888888"); ("error", JStr "#666666")].

(** A descriptor that is a mapping without the sub-mapping [a.b]: the
    key [a] is absent, or holds a mapping without the key [b]. *)
Definition lacks_submapping (td : json) (a b : string) : bool :=
  match td with
  | JObj fields =>
      match Json.assoc a fields with
      | None => true
      | Some (JObj sub) => bool_decide (Json.assoc b sub = None)
      | Some _ => false
      end
  | _ => false
  end.

(** A descriptor that is a mapping holding the mapping [m] at [a.b]. *)
Definition submapping (td : json) (a b : string) : option json :=
  match td with
  | JObj fields =>
      match Json.assoc a fields with
      | Some (JObj sub) => Json.assoc b sub
      | _ => None
      end
  | _ => None
  end.

(** The structured path gave no data: the file is absent, [json.load]
    rejected it, or a lookup raised [KeyError]. *)
Definition structured_gives_nothing (name : string) (jf : json_file) : Prop :=
  match jf with
  | JsonMissing | JsonInvalid => True
  | JsonUnreadable => False
  | JsonParsed td => structured_extract name td = Raise KeyError
  end.

(** A string that holds no line break. *)
Fixpoint no_newline (s : string) : bool :=
  match s with
  | EmptyString => true
  | String c r => negb (Ascii.eqb c Chr.nl) && no_newline r
  end.

(** A key whose assignment line cannot be taken for a header: it begins
    with a character that is neither white space nor a bracket. *)
Definition plain_key (k : string) : bool :=
  match k with
  | String c _ => negb (PyStr.is_space c) && negb (Ascii.eqb Chr.lbracket c)
  | EmptyString => false
  end.

(** A theme whose strings each stay on the line they are written to. *)
Definition plain_theme (theme : Theme.t string) : bool :=
  no_newline (Theme.name theme) && no_newline (Theme.source theme)
  && forallb (λ kv, plain_key (fst kv) && no_newline (fst kv)
                    && no_newline (snd kv)) (Theme.colors theme)
  && no_newline (Theme.background theme)
  && no_newline (Theme.foreground theme).

(** A line with its terminator. *)
Definition terminated (l : string) : Prop :=
  ∃ body, l = body +:+ NL ∧ no_newline body = true.

(** The shape of what [readlines] returns: terminated lines, then
    possibly one last line without terminator. *)
Inductive well_lined : list string → Prop :=
| wl_nil : well_lined []
| wl_tail b : no_newline b = true → b ≠ EmptyString → well_lined [b]
| wl_cons body ls :
    no_newline body = true → well_lined ls → well_lined ((body +:+ NL) :: ls).

(** A line given the terminator it lacks. *)
Definition close_line (l : string) : string :=
  if PyStr.ends_with_char l Chr.nl then l else l +:+ NL.

(** The theme block line by line, as [readlines] returns it. *)
Definition block_lines (theme : Theme.t string) : list string :=
  [NL; "[theme]" +:+ NL;
   assignment "name" (Theme.name theme);
   assignment "source" (Theme.source theme);
   NL; "[theme.colors]" +:+ NL]
  ++ map (λ kv, assignment (fst kv) (snd kv)) (Theme.colors theme)
  ++ [assignment "background" (Theme.background theme);
      assignment "foreground" (Theme.foreground theme);
      NL].

(** The text the merger keeps from the destination: the lines outside
    the theme sections, the last one terminated. *)
Definition kept_text (text : string) : string :=
  PyStr.writelines
    (terminate_last (new_lines (removal_pass (PyStr.readlines text)))).

(** A string in which the character [c] does not occur. *)
Fixpoint lacks_char (c : ascii) (s : string) : bool :=
  match s with
  | EmptyString => true
  | String a r => negb (Ascii.eqb a c) && lacks_char c r
  end.

(** A result whose values are strings, as one whose values are JSON
    strings. *)
Definition as_json (td : theme_data string) : theme_data json :=
  ThemeData (theme_name td)
            (map (λ kv, (fst kv, JStr (snd kv))) (colors td))
            (JStr (background td)) (JStr (foreground td)).

(** A fully populated palette: the 6 roles in the program's order, and
    all 8 values colours in normal form. *)
Definition populated_palette (td : theme_data string) : bool :=
  bool_decide (map fst (colors td) = role_names)
  && forallb (λ kv, is_hex_color (snd kv)) (colors td)
  && is_hex_color (background td) && is_hex_color (foreground td).

(** A theme name that stays inside its quotes on the [name] line and
    cannot be read as an assignment. *)
Definition plain_name (name : string) : bool :=
  no_newline name && lacks_char Chr.eq_sign name.

Definition all_hex (d : gmap string string) : Prop :=
  map_Forall (λ _ v, is_hex_color v = true) d.

Definition maps_hex (st : scan_state) : Prop :=
  all_hex (normal_colors st) ∧ all_hex (bright_colors st)
  ∧ all_hex (primary_colors st).

Definition demo_toml : string :=
  "[colors.primary]" +:+ NL +:+ "background = '#101010'" +:+ NL +:+
  "[colors.normal]" +:+ NL +:+ "red = '0xaa0000'" +:+ NL.

(** The structured descriptor exists and yields no data: [json.load]
    rejected it, or a lookup raised [KeyError]. *)
Definition structured_fails (name : string) (jf : json_file) : Prop :=
  match jf with
  | JsonInvalid => True
  | JsonParsed td => structured_extract name td = Raise KeyError
  | _ => False
  end.

Definition both_red_toml : string :=
  "[colors.normal]" +:+ NL +:+ "red = '#aa0000'" +:+ NL +:+
  "[colors.bright]" +:+ NL +:+ "red = '#ff5555'" +:+ NL +:+
  "blue = '#5555ff'" +:+ NL.

Definition bare_toml : string :=
  "foreground = '#123456'" +:+ NL +:+
  "[colors.cursor]" +:+ NL +:+ "text = '#000000'" +:+ NL.

(** Background and foreground as the specification words them: both from
    the primary-section map when both keys are there, otherwise the
    defaults, each overwritten by what the search of the raw text finds. *)
Definition stated_grounds (f : text_file) : string * string :=
  let primary := snd (parse_toml_colors f) in
  match primary !! "background", primary !! "foreground" with
  | Some bg, Some fg => (bg, fg)
  | _, _ => (rescan f "background" "#282a36", rescan f "foreground" "#f8f8f2")
  end.

Definition cursor_toml : string :=
  "[colors.cursor]" +:+ NL +:+ "foreground = '#111111'" +:+ NL +:+
  "[colors.primary]" +:+ NL +:+ "background = '#222222'" +:+ NL.

(** A [[theme]] or [[theme.*]] header. *)
Definition theme_header_line (line : string) : Prop :=
  is_theme_header (PyStr.strip line) = true.

(** A header line that does not begin with [[theme]. *)
Definition other_header_line (line : string) : Prop :=
  leaves_theme (PyStr.strip line) = true.

(** [line], found after the lines [before], is inside a theme section:
    a theme header stands before it, and no header line that does not
    begin with [[theme] stands after that header, up to and including
    [line]. *)
Definition inside_theme_section (before : list string) (line : string) : Prop :=
  ∃ pre h mid,
    before = pre ++ h :: mid
    ∧ theme_header_line h
    ∧ Forall (λ x, ¬ other_header_line x) (mid ++ [line]).

(** The lines the claim lets the merger drop. *)
Definition theme_line (before : list string) (line : string) : Prop :=
  theme_header_line line ∨ inside_theme_section before line.

(** The same, decided: going back from the line, the nearest header is a
    theme header. *)
Fixpoint section_open (before_rev : list string) : bool :=
  match before_rev with
  | [] => false
  | l :: r =>
      if is_theme_header (PyStr.strip l) then true
      else if leaves_theme (PyStr.strip l) then false
      else section_open r
  end.

Definition is_theme_line (before : list string) (line : string) : bool :=
  is_theme_header (PyStr.strip line)
  || (negb (leaves_theme (PyStr.strip line)) && section_open (rev before)).

(** The lines of [rest] that are no theme lines, [before] being what
    precedes [rest] in the file. *)
Fixpoint frame (before rest : list string) : list string :=
  match rest with
  | [] => []
  | l :: r =>
      (if is_theme_line before l then [] else [l]) ++ frame (before ++ [l]) r
  end.

Definition demo_palette : theme_data string :=
  ThemeData "nord"
    [("accent", "#81a1c1"); ("primary", "#88c0d0"); ("secondary", "#b48ead");
     ("success", "#a3be8c"); ("warning", "#ebcb8b"); ("error", "#bf616a")]
    "#2e3440" "#d8dee9".

(** ** [simple_toml_dump] *)

(** The dictionary handed to [simple_toml_dump], as far as the function
    looks into it.  A value that is neither a [str] nor a [dict] is
    printed by the f-string; it is given by the text printed. *)
Module Dump.

Inductive scalar :=
| Str (s : string)
| Other (printed : string).

Inductive value :=
| Scalar (v : scalar)
| Dict (items : list (string * scalar)).

Inductive section :=
| Mapping (entries : list (string * value))
| NotMapping.

(** The line written for a key that holds no dictionary. *)
Definition scalar_line (key : string) (v : scalar) : string :=
  match v with
  | Str s => key +:+ " = " +:+ DQ +:+ s +:+ DQ +:+ NL
  | Other printed => key +:+ " = " +:+ printed +:+ NL
  end.

(** What the loop body writes for one key of a section. *)
Definition entry_text (section_name : string) (kv : string * value) : string :=
  match snd kv with
  | Dict items =>
      NL +:+ "[" +:+ section_name +:+ "." +:+ fst kv +:+ "]" +:+ NL
      +:+ PyStr.writelines (map (λ nkv, scalar_line (fst nkv) (snd nkv)) items)
  | Scalar v => scalar_line (fst kv) v
  end.

(** What the outer loop body writes for one section. *)
Definition section_text (sv : string * section) : string :=
  "[" +:+ fst sv +:+ "]" +:+ NL
  +:+ match snd sv with
      | Mapping entries => PyStr.writelines (map (entry_text (fst sv)) entries)
      | NotMapping => EmptyString
      end
  +:+ NL.

End Dump.

(** [simple_toml_dump(data, f)]: the text written to [f]. *)
Definition simple_toml_dump (data : list (string * Dump.section)) : string :=
  PyStr.writelines (map Dump.section_text data).

(** The dictionary [generate_navitone_config] returns, for [str] values:
    the key [theme] holding name, source, colors, background and
    foreground, in that order. *)
Definition config_dict (theme : Theme.t string) : list (string * Dump.section) :=
  [("theme", Dump.Mapping
     [("name", Dump.Scalar (Dump.Str (Theme.name theme)));
      ("source", Dump.Scalar (Dump.Str (Theme.source theme)));
      ("colors", Dump.Dict (map (λ kv, (fst kv, Dump.Str (snd kv)))
                                (Theme.colors theme)));
      ("background", Dump.Scalar (Dump.Str (Theme.background theme)));
      ("foreground", Dump.Scalar (Dump.Str (Theme.foreground theme)))])].

(** ** [simple_toml_load] *)

(** Python dictionaries with [str] keys, in insertion order. *)
Module Dict.

(** [d[k]], [None] for a missing key. *)
Fixpoint get {V} (k : string) (d : list (string * V)) : option V :=
  match d with
  | [] => None
  | (k', v) :: r => if String.eqb k k' then Some v else get k r
  end.

(** [d[k] = v]: the value is replaced where the key is, or the pair is
    added at the end. *)
Fixpoint set {V} (k : string) (v : V) (d : list (string * V))
  : list (string * V) :=
  match d with
  | [] => [(k, v)]
  | (k', v') :: r =>
      if String.eqb k k' then (k', v) :: r else (k', v') :: set k v r
  end.

(** [k in d] *)
Definition mem {V} (k : string) (d : list (string * V)) : bool :=
  match get k d with
  | Some _ => true
  | None => false
  end.

End Dict.

Module Loader.

(** What a section of the loaded dictionary holds under a key. *)
Inductive value :=
| Text (s : string)
| Table (items : list (string * string)).

Record state := State {
  data : list (string * list (string * value));
  current_section : option string;
  current_nested : option string
}.

Definition init : state := State [] None None.

(** Truth value of [None] or a string. *)
Definition truthy (o : option string) : bool :=
  match o with
  | Some (String _ _) => true
  | _ => false
  end.

(** [s[:-1]] *)
Fixpoint drop_last (s : string) : string :=
  match s with
  | EmptyString => EmptyString
  | String _ EmptyString => EmptyString
  | String c r => String c (drop_last r)
  end.

(** [line[1:-1]] *)
Definition inner (line : string) : string :=
  match line with
  | EmptyString => EmptyString
  | String _ r => drop_last r
  end.

(** The branch taken for a section header. *)
Definition open_section (st : state) (section_name : string) : outcome state :=
  if PyStr.contains "." section_name then
    match PyStr.split1 Chr.dot section_name with
    | Some (cs, cn) =>
        let data1 := if Dict.mem cs (data st) then data st
                     else Dict.set cs [] (data st) in
        match Dict.get cs data1 with
        | Some sec =>
            Return (State (Dict.set cs (Dict.set cn (Table []) sec) data1)
                          (Some cs) (Some cn))
        | None => Raise KeyError
        end
    | None => Return st
    end
  else
    Return (State (Dict.set section_name [] (data st)) (Some section_name) None).

(** The two assignments that store a key-value pair. *)
Definition store (st : state) (cs key value : string) : outcome state :=
  match Dict.get cs (data st) with
  | None => Raise KeyError
  | Some sec =>
      if truthy (current_nested st) then
        let cn := default EmptyString (current_nested st) in
        match Dict.get cn sec with
        | None => Raise KeyError
        | Some (Text _) => Raise TypeError
        | Some (Table items) =>
            Return (State (Dict.set cs (Dict.set cn (Table (Dict.set key value items)) sec)
                                    (data st))
                          (current_section st) (current_nested st))
        end
      else
        Return (State (Dict.set cs (Dict.set key (Text value) sec) (data st))
                      (current_section st) (current_nested st))
  end.

(** One iteration of the loop over [content.split(newline)]. *)
Definition load_line (st : state) (raw : string) : outcome state :=
  let line := PyStr.strip raw in
  if String.eqb line EmptyString || PyStr.startswith line "#" then Return st
  else if PyStr.startswith line "[" && PyStr.ends_with_char line "]"
  then open_section st (inner line)
  else if PyStr.contains "=" line && truthy (current_section st) then
    match PyStr.split1 Chr.eq_sign line with
    | Some (key, value) =>
        store st (default EmptyString (current_section st))
              (PyStr.strip key) (PyStr.strip_quotes (PyStr.strip value))
    | None => Return st
    end
  else Return st.

Fixpoint load_lines (st : state) (lines : list string) : outcome state :=
  match lines with
  | [] => Return st
  | l :: r => let! st' := load_line st l in load_lines st' r
  end.

End Loader.

(** [simple_toml_load(f)] for a file whose [read] gives [content]. *)
Definition simple_toml_load (content : string)
  : outcome (list (string * list (string * Loader.value))) :=
  let! st := Loader.load_lines Loader.init (PyStr.split Chr.nl content) in
  Return (Loader.data st).

(** ** [get_current_theme_path] and [main] *)








(** The 6 roles read from a colour mapping of the structured
    descriptor: each role from its source key, or its constant. *)
Definition roles_from (fields : list (string * json)) : list (string * json) :=
  [("accent", default (JStr "#38d6fa") (Json.assoc "blue" fields));
   ("primary", default (JStr "#048ba8") (Json.assoc "cyan" fields));
   ("secondary", default (JStr "#d35f5f") (Json.assoc "magenta" fields));
   ("success", default (JStr "#a9fbd7") (Json.assoc "green" fields));
   ("warning", default (JStr "#9f87af") (Json.assoc "yellow" fields));
   ("error", default (JStr "#9c528b") (Json.assoc "red" fields))].

Definition well_stored (d : gmap string string) : Prop :=
  map_Forall (λ k v, lacks_char Chr.dot k = true ∧ is_hex_color v = true) d.

(** The section and the table the loader is writing into exist. *)
Definition loader_consistent (st : Loader.state) : Prop :=
  Loader.truthy (Loader.current_section st) = true →
  ∃ sec,
    Dict.get (default EmptyString (Loader.current_section st)) (Loader.data st)
    = Some sec
    ∧ (Loader.truthy (Loader.current_nested st) = true →
       ∃ items,
         Dict.get (default EmptyString (Loader.current_nested st)) sec
         = Some (Loader.Table items)).

(** ** Dictionaries that survive a dump and a load *)

(** A key of an assignment line: it begins with a character that is
    neither white space nor [#], ends with no white space, and holds
    neither [=] nor a line break. *)
Definition loadable_key (k : string) : bool :=
  match k with
  | String c _ => negb (PyStr.is_space c) && negb (Ascii.eqb c Chr.hash)
  | EmptyString => false
  end
  && String.eqb (PyStr.rtrim PyStr.is_space k) k
  && lacks_char Chr.eq_sign k && no_newline k.

(** A value of an assignment line: no line break, and no quote
    character at either end. *)
Definition loadable_value (v : string) : bool :=
  no_newline v
  && String.eqb (PyStr.ltrim PyStr.is_quote v) v
  && String.eqb (PyStr.rtrim PyStr.is_quote v) v.

(** A section name: not empty, without dot and line break. *)
Definition loadable_section (n : string) : bool :=
  negb (String.eqb n EmptyString) && lacks_char Chr.dot n && no_newline n.

(** The name of a table of a section: not empty, without line break. *)
Definition loadable_table (k : string) : bool :=
  negb (String.eqb k EmptyString) && no_newline k.

Definition is_table (kv : string * Loader.value) : bool :=
  match snd kv with
  | Loader.Table _ => true
  | Loader.Text _ => false
  end.

(** The strings of a section come before its tables. *)
Fixpoint strings_first (entries : list (string * Loader.value)) : bool :=
  match entries with
  | [] => true
  | (_, Loader.Text _) :: r => strings_first r
  | (_, Loader.Table _) :: r => forallb is_table r
  end.

Definition loadable_items (items : list (string * string)) : bool :=
  bool_decide (NoDup (map fst items))
  && forallb (λ kv, loadable_key (fst kv) && loadable_value (snd kv)) items.

Definition loadable_entry (kv : string * Loader.value) : bool :=
  match snd kv with
  | Loader.Text s => loadable_key (fst kv) && loadable_value s
  | Loader.Table items => loadable_table (fst kv) && loadable_items items
  end.

Definition loadable_entries (entries : list (string * Loader.value)) : bool :=
  bool_decide (NoDup (map fst entries))
  && strings_first entries && forallb loadable_entry entries.

(** A dictionary [simple_toml_load] gives back after [simple_toml_dump]. *)
Definition loadable (data : list (string * list (string * Loader.value))) : bool :=
  bool_decide (NoDup (map fst data))
  && forallb (λ sv, loadable_section (fst sv) && loadable_entries (snd sv)) data.

(** A loaded dictionary as the dictionary [simple_toml_dump] takes. *)
Definition dump_value (v : Loader.value) : Dump.value :=
  match v with
  | Loader.Text s => Dump.Scalar (Dump.Str s)
  | Loader.Table items =>
      Dump.Dict (map (λ kv, (fst kv, Dump.Str (snd kv))) items)
  end.

Definition dump_view (data : list (string * list (string * Loader.value)))
  : list (string * Dump.section) :=
  map (λ sv, (fst sv,
              Dump.Mapping (map (λ kv, (fst kv, dump_value (snd kv))) (snd sv))))
      data.

(** The lines of the dump, without their terminators. *)
Definition item_line (kv : string * string) : string :=
  fst kv +:+ " = " +:+ DQ +:+ snd kv +:+ DQ.

Definition entry_lines (n : string) (kv : string * Loader.value) : list string :=
  match snd kv with
  | Loader.Text s => [item_line (fst kv, s)]
  | Loader.Table items =>
      EmptyString :: ("[" +:+ n +:+ "." +:+ fst kv +:+ "]") :: map item_line items
  end.

Definition section_lines (sv : string * list (string * Loader.value))
  : list string :=
  ("[" +:+ fst sv +:+ "]") :: concat (map (entry_lines (fst sv)) (snd sv))
  ++ [EmptyString].

Definition data_lines (data : list (string * list (string * Loader.value)))
  : list string :=
  concat (map section_lines data).

(** [d[k] = v] for each pair of [items], in order. *)
Definition dict_update {V} (d items : list (string * V)) : list (string * V) :=
  foldl (λ acc kv, Dict.set (fst kv) (snd kv) acc) d items.

(** An entry as the loader rebuilds it: a table is filled item by item. *)
Definition rebuilt_entry (kv : string * Loader.value) : string * Loader.value :=
  (fst kv,
   match snd kv with
   | Loader.Text s => Loader.Text s
   | Loader.Table items => Loader.Table (dict_update [] items)
   end).

Definition rebuilt_section (sv : string * list (string * Loader.value))
  : string * list (string * Loader.value) :=
  (fst sv, dict_update [] (map rebuilt_entry (snd sv))).

(** The dictionary the loader gives for the dump of a configuration:
    what follows the table header is stored in the table. *)
Definition reloaded_config (theme : Theme.t string)
  : list (string * list (string * Loader.value)) :=
  [("theme",
    [("name", Loader.Text (Theme.name theme));
     ("source", Loader.Text (Theme.source theme));
     ("colors",
      Loader.Table (Theme.colors theme
                    ++ [("background", Theme.background theme);
                        ("foreground", Theme.foreground theme)]))])].

Definition demo_dictionary : list (string * list (string * Loader.value)) :=
  [("theme",
    [("name", Loader.Text "omarchy-nord");
     ("colors", Loader.Table [("accent", "#81a1c1"); ("error", "#bf616a")]);
     ("fonts", Loader.Table [])]);
   ("player", [("volume", Loader.Text "80")])].

(** ** The structured path *)

Example parse_demo :
  parse_toml_colors (Content
    ("[colors.normal]" +:+ NL +:+ "red = '0xaa0000'" +:+ NL +:+
     "[colors.bright]" +:+ NL +:+ "red = '#ff0000'" +:+ NL +:+
     "colors.blue = " +:+ DQ +:+ "#0000FF" +:+ DQ +:+ " # note" +:+ NL +:+
     "[colors.primary]" +:+ NL +:+ "background = '#101010'"))
  = ({["red" := "#aa0000"; "blue" := "#0000FF"]}, {["background" := "#101010"]}).
Proof. vm_compute. reflexivity. Qed.

Lemma has_path_lacks td a b :
  lacks_submapping td a b = true → Json.has_path td a b = Return false.
Proof.
  destruct td as [| | | | |fields]; try discriminate. simpl.
  unfold Json.has_path. simpl.
  destruct (Json.assoc a fields) as [[| | | | |sub]|] eqn:Ha; try discriminate.
  - intros Hb. apply bool_decide_eq_true in Hb.
    rewrite bool_decide_eq_true_2 by eauto. simpl.
    rewrite Hb. rewrite bool_decide_eq_false_2; [done|]. by intros [? ?].
  - intros _. rewrite bool_decide_eq_false_2; [done|]. by intros [? ?].
Qed.

Lemma has_path_submapping td a b m :
  submapping td a b = Some m →
  Json.has_path td a b = Return true
  ∧ (let! x := Json.getitem td a in Json.getitem x b) = Return m.
Proof.
  destruct td as [| | | | |fields]; try discriminate. simpl.
  unfold Json.has_path. simpl.
  destruct (Json.assoc a fields) as [[| | | | |sub]|] eqn:Ha; try discriminate.
  intros Hb. rewrite bool_decide_eq_true_2 by eauto. simpl. rewrite Hb.
  rewrite bool_decide_eq_true_2 by eauto. done.
Qed.

Lemma roles_of_json_keys m cols :
  roles_of_json m = Return cols → map fst cols = role_names.
Proof.
  unfold roles_of_json. destruct m; simpl; try discriminate.
  intros [= <-]. reflexivity.
Qed.

Lemma structured_colors_keys td cols :
  structured_colors td = Return cols → cols = [] ∨ map fst cols = role_names.
Proof.
  unfold structured_colors.
  destruct (Json.has_path td "colors" "terminal") as [[|]|]; simpl; try discriminate.
  - destruct (Json.getitem td "colors") as [c|]; simpl; try discriminate.
    destruct (Json.getitem c "terminal") as [t|]; simpl; try discriminate.
    intros H. right. eapply roles_of_json_keys, H.
  - destruct (Json.has_path td "apps" "alacritty") as [[|]|]; simpl; try discriminate.
    + destruct (Json.getitem td "apps") as [x|]; simpl; try discriminate.
      destruct (Json.getitem x "alacritty") as [y|]; simpl; try discriminate.
      destruct (Json.getitem y "colors") as [z|]; simpl; try discriminate.
      destruct (Json.getitem z "normal") as [w|]; simpl; try discriminate.
      intros H. right. eapply roles_of_json_keys, H.
    + intros [= <-]. by left.
Qed.

Lemma structured_extract_colors name td r :
  structured_extract name td = Return r → structured_colors td = Return (colors r).
Proof.
  unfold structured_extract.
  destruct (structured_colors td) as [cols|]; simpl; try discriminate.
  destruct (structured_grounds td) as [g|]; simpl; try discriminate.
  by intros [= <-].
Qed.

Lemma extract_structured name td toml r :
  structured_extract name td = Return r →
  extract_theme_colors name (JsonParsed td) toml = Return (Some r).
Proof. intros H. simpl. by rewrite H. Qed.

Lemma extract_gives_nothing name jf toml :
  structured_gives_nothing name jf →
  extract_theme_colors name jf toml = toml_fallback name toml.
Proof.
  destruct jf as [| | |td]; simpl; try done. by intros ->.
Qed.

(** Either the structured path produced the result, or the fallback did. *)
Lemma extract_cases name jf toml r :
  extract_theme_colors name jf toml = Return (Some r) →
  (∃ td, jf = JsonParsed td ∧ structured_extract name td = Return r)
  ∨ (structured_gives_nothing name jf ∧ toml ≠ Missing ∧ r = line_extract name toml).
Proof.
  destruct jf as [| | |td]; simpl.
  - destruct toml; simpl; intros [= <-] || discriminate; right; done.
  - discriminate.
  - destruct toml; simpl; intros [= <-] || discriminate; right; done.
  - destruct (structured_extract name td) as [r'|[]] eqn:E; try discriminate.
    + intros [= <-]. left. eauto.
    + destruct toml; simpl; intros [= <-] || discriminate; right; done.
Qed.

(** ** Colours stored by the line-oriented path are in normal form *)

Lemma hex6_fixed s d : Re.hex6 s = Some d → Re.hex6 d = Some d.
Proof.
  destruct s as [|a [|b [|c [|x [|e [|f s]]]]]]; simpl; try discriminate.
  destruct (PyStr.is_hex a && PyStr.is_hex b && PyStr.is_hex c
            && PyStr.is_hex x && PyStr.is_hex e && PyStr.is_hex f) eqn:H;
    try discriminate.
  intros [= <-]. simpl. by rewrite H.
Qed.

Lemma color_at_hex s d : Re.color_at s = Some d → Re.hex6 d = Some d.
Proof.
  unfold Re.color_at.
  repeat (case_match; try discriminate); eauto using hex6_fixed.
Qed.

Lemma search_color_eq s :
  Re.search_color s =
  match Re.color_at s with
  | Some g => Some g
  | None => match s with
            | EmptyString => None
            | String _ s' => Re.search_color s'
            end
  end.
Proof. by destruct s. Qed.

Lemma search_field_eq field s :
  Re.search_field field s =
  match Re.field_at field s with
  | Some g => Some g
  | None => match s with
            | EmptyString => None
            | String _ s' => Re.search_field field s'
            end
  end.
Proof. by destruct s. Qed.

Lemma search_color_hex s d : Re.search_color s = Some d → Re.hex6 d = Some d.
Proof.
  induction s as [|c s IH]; rewrite search_color_eq.
  - discriminate.
  - destruct (Re.color_at (String c s)) eqn:E.
    + intros [= <-]. eauto using color_at_hex.
    + exact IH.
Qed.

Lemma quoted_color_at_hex s d : Re.quoted_color_at s = Some d → Re.hex6 d = Some d.
Proof.
  unfold Re.quoted_color_at. destruct s as [|q r]; [discriminate|].
  destruct (PyStr.is_quote q).
  - destruct (Re.color_at r) eqn:E.
    + intros [= <-]. eauto using color_at_hex.
    + apply color_at_hex.
  - apply color_at_hex.
Qed.

Lemma field_at_hex field s d : Re.field_at field s = Some d → Re.hex6 d = Some d.
Proof.
  unfold Re.field_at.
  destruct (Re.literal field s) as [r1|]; [|discriminate].
  destruct (PyStr.ltrim PyStr.is_space r1) as [|c r2]; [discriminate|].
  destruct (Ascii.eqb c Chr.eq_sign); [|discriminate].
  apply quoted_color_at_hex.
Qed.

Lemma search_field_hex field s d :
  Re.search_field field s = Some d → Re.hex6 d = Some d.
Proof.
  induction s as [|c s IH]; rewrite search_field_eq.
  - destruct (Re.field_at field "") eqn:E; [|discriminate].
    intros [= <-]. eauto using field_at_hex.
  - destruct (Re.field_at field (String c s)) eqn:E.
    + intros [= <-]. eauto using field_at_hex.
    + exact IH.
Qed.

Lemma hash_digits_hex d : Re.hex6 d = Some d → is_hex_color ("#" +:+ d) = true.
Proof. intros H. simpl. by apply bool_decide_eq_true_2. Qed.

Lemma store_color_hex st name clean :
  maps_hex st → is_hex_color clean = true → maps_hex (store_color st name clean).
Proof.
  intros (Hn & Hb & Hp) Hc. unfold store_color.
  destruct (current_section st); repeat split; simpl; try done;
    by apply map_Forall_insert_2.
Qed.

Lemma scan_line_hex st raw : maps_hex st → maps_hex (scan_line st raw).
Proof.
  intros H. unfold scan_line.
  repeat (case_match; try done).
  apply store_color_hex; [done|].
  eauto using hash_digits_hex, search_color_hex.
Qed.

Lemma foldl_scan_hex lines st :
  maps_hex st → maps_hex (foldl scan_line st lines).
Proof.
  revert st. induction lines as [|l lines IH]; intros st H; simpl; [done|].
  apply IH, scan_line_hex, H.
Qed.

Lemma scan_file_hex f : maps_hex (scan_file f).
Proof.
  assert (maps_hex scan_init) by (repeat split; apply map_Forall_empty).
  destruct f; simpl; try done. by apply foldl_scan_hex.
Qed.

Lemma fill_from_bright_hex bright colors k :
  all_hex bright → all_hex colors → all_hex (fill_from_bright bright colors k).
Proof.
  intros Hb Hc. unfold fill_from_bright.
  destruct (colors !! k); [done|].
  destruct (bright !! k) as [v|] eqn:E; [|done].
  apply map_Forall_insert_2; [|done]. by eapply Hb.
Qed.

Lemma merge_colors_hex normal bright :
  all_hex normal → all_hex bright → all_hex (merge_colors normal bright).
Proof.
  intros Hn Hb. unfold merge_colors.
  generalize canonical_names. intros names. revert normal Hn.
  induction names as [|k names IH]; intros normal Hn; simpl; [done|].
  by apply IH, fill_from_bright_hex.
Qed.

Lemma map_get_hex d k dflt :
  all_hex d → is_hex_color dflt = true → is_hex_color (map_get d k dflt) = true.
Proof.
  intros Hd Hc. unfold map_get. destruct (d !! k) eqn:E; simpl; [|done].
  by eapply Hd.
Qed.

Lemma rescan_hex f field current :
  is_hex_color current = true → is_hex_color (rescan f field current) = true.
Proof.
  intros H. destruct f as [| |text]; simpl; try done.
  destruct (Re.search_field field text) eqn:E; [|done].
  eauto using hash_digits_hex, search_field_hex.
Qed.

Lemma line_extract_holds_colors name f : holds_colors (line_extract name f).
Proof.
  unfold line_extract, parse_toml_colors.
  destruct (scan_file_hex f) as (Hn & Hb & Hp).
  pose proof (merge_colors_hex _ _ Hn Hb) as Hm.
  set (m := merge_colors _ _) in *. set (p := primary_colors _) in *.
  assert (is_hex_color (map_get p "background" "#282a36") = true) as Hbg
    by (by apply map_get_hex).
  assert (is_hex_color (map_get p "foreground" "#f8f8f2") = true) as Hfg
    by (by apply map_get_hex).
  repeat split; simpl.
  - by destruct (is_empty_map m).
  - destruct (is_empty_map m).
    + repeat constructor.
    + repeat constructor; simpl; by apply map_get_hex.
  - destruct (is_empty_map p); [by apply rescan_hex | done].
  - destruct (is_empty_map p); [by apply rescan_hex | done].
Qed.

(** ** Results of the extraction *)

(** Without [apps.alacritty] no lookup of the structured path can raise
    [KeyError]. *)
Lemma structured_no_key_error name td :
  lacks_submapping td "colors" "terminal" = true →
  lacks_submapping td "apps" "alacritty" = true →
  structured_colors td = Return []
  ∧ structured_extract name td ≠ Raise KeyError.
Proof.
  intros Ht Ha.
  pose proof (has_path_lacks _ _ _ Ht) as Ht'.
  pose proof (has_path_lacks _ _ _ Ha) as Ha'.
  assert (structured_colors td = Return []) as Hc.
  { unfold structured_colors. rewrite Ht'. simpl. by rewrite Ha'. }
  split; [done|].
  unfold structured_extract. rewrite Hc. simpl.
  unfold structured_grounds. rewrite Ha'.
  destruct td as [| | | | |fields]; try discriminate.
  unfold Json.has_path. simpl.
  simpl in Ht.
  destruct (Json.assoc "colors" fields) as [[| | | | |sub]|] eqn:Ec;
    simpl; try done.
  destruct (Json.assoc "primary" sub) as [[]|] eqn:Ep; simpl; done.
Qed.

(** C10.  When [custom_theme.json] holds a document [json.load] accepts
    and the structured path raises no lookup error, the outcome of
    [extract_theme_colors] is the outcome of the structured path, whatever
    [alacritty.toml] is: the file is never consulted.  When the document
    is a mapping holding none of [colors.terminal], [apps.alacritty] and
    [colors.primary], the result has an empty [colors] mapping with
    background [#000000] and foreground [#ffffff]. *)
Theorem structured_path_short_circuits name td toml :
  structured_extract name td ≠ Raise KeyError →
  extract_theme_colors name (JsonParsed td) toml
    = (let! r := structured_extract name td in Return (Some r))
  ∧ (∀ toml', extract_theme_colors name (JsonParsed td) toml'
              = extract_theme_colors name (JsonParsed td) toml)
  ∧ (∀ r, structured_extract name td = Return r →
          extract_theme_colors name (JsonParsed td) toml = Return (Some r))
  ∧ (lacks_submapping td "colors" "terminal" = true →
     lacks_submapping td "apps" "alacritty" = true →
     lacks_submapping td "colors" "primary" = true →
     extract_theme_colors name (JsonParsed td) toml
       = Return (Some (ThemeData name [] (JStr "#000000") (JStr "#ffffff")))).
Proof.
  intros Hne.
  assert (∀ t, extract_theme_colors name (JsonParsed td) t
               = (let! r := structured_extract name td in Return (Some r))) as Heq.
  { intros t. simpl. by destruct (structured_extract name td) as [r|[]]. }
  split; [apply Heq|]. split; [intros t; by rewrite !Heq|].
  split; [intros r Hr; by apply extract_structured|].
  intros Ht Ha Hp. rewrite Heq.
  destruct (structured_no_key_error name td Ht Ha) as [Hc _].
  unfold structured_extract, structured_grounds. rewrite Hc.
  by rewrite (has_path_lacks _ _ _ Hp), (has_path_lacks _ _ _ Ha).
Qed.

Lemma structured_path_short_circuits_witness :
  structured_extract "nord" (JObj [("name", JStr "Nord")]) ≠ Raise KeyError
  ∧ extract_theme_colors "nord" (JsonParsed (JObj [("name", JStr "Nord")]))
      (Content demo_toml)
    = Return (Some (ThemeData "nord" [] (JStr "#000000") (JStr "#ffffff"))).
Proof.
  assert (structured_extract "nord" (JObj [("name", JStr "Nord")]) ≠ Raise KeyError)
    as H by (vm_compute; discriminate).
  split; [exact H|].
  apply (structured_path_short_circuits "nord" _ (Content demo_toml) H);
    reflexivity.
Defined.

(** C3, as stated, fails: with a descriptor [json.load] rejects, and with
    one whose lookup raises [KeyError], a parseable [alacritty.toml] is
    read and its colours are returned. *)
Lemma fallback_not_attempted_counterexample :
  extract_theme_colors "t" JsonInvalid (Content demo_toml)
    = Return (Some (ThemeData "t"
        [("accent", JStr "#6272a4"); ("primary", JStr "#8be9fd");
         ("secondary", JStr "#ff79c6"); ("success", JStr "#50fa7b");
         ("warning", JStr "#f1fa8c"); ("error", JStr "#aa0000")]
        (JStr "#101010") (JStr "#f8f8f2")))
  ∧ extract_theme_colors "t" JsonInvalid (Content demo_toml) ≠ Return None
  ∧ structured_extract "t" (JObj [("apps", JObj [("alacritty", JObj [])])])
    = Raise KeyError
  ∧ extract_theme_colors "t"
      (JsonParsed (JObj [("apps", JObj [("alacritty", JObj [])])]))
      (Content demo_toml) ≠ Return None.
Proof. vm_compute. repeat split; discriminate. Qed.

(** C3, amended.  When the structured descriptor exists but is rejected
    by [json.load], or a lookup in it raises [KeyError], the structured
    path yields no data and the line-oriented file IS then tried: the
    outcome is that of the fallback on [alacritty.toml], which returns
    the line-oriented result whenever that file exists, and no data
    exactly when it is absent. *)
Theorem parse_failure_falls_back name jf toml :
  structured_fails name jf →
  extract_theme_colors name jf toml = toml_fallback name toml
  ∧ (toml ≠ Missing →
     extract_theme_colors name jf toml = Return (Some (line_extract name toml)))
  ∧ (extract_theme_colors name jf toml = Return None ↔ toml = Missing).
Proof.
  intros Hf.
  assert (extract_theme_colors name jf toml = toml_fallback name toml) as ->.
  { apply extract_gives_nothing. by destruct jf. }
  split; [done|]. destruct toml; simpl; split; try done; split; done.
Qed.

Lemma parse_failure_falls_back_witness :
  structured_fails "t" JsonInvalid
  ∧ extract_theme_colors "t" JsonInvalid (Content demo_toml)
    = Return (Some (line_extract "t" (Content demo_toml))).
Proof.
  split; [exact I|].
  apply (parse_failure_falls_back "t" JsonInvalid (Content demo_toml) I).
  discriminate.
Defined.

(** C2, as stated, fails: for the descriptor [{}], which holds neither
    sub-mapping, the result has no role at all, so [accent] is not the
    constant [#38d6fa] (nor is any other role its constant). *)
Lemma missing_submappings_counterexample :
  lacks_submapping (JObj []) "colors" "terminal" = true
  ∧ lacks_submapping (JObj []) "apps" "alacritty" = true
  ∧ extract_theme_colors "t" (JsonParsed (JObj [])) Missing
    = Return (Some (ThemeData "t" [] (JStr "#000000") (JStr "#ffffff")))
  ∧ colors (ThemeData "t" [] (JStr "#000000") (JStr "#ffffff"))
    ≠ structured_fallback
  ∧ role_value (ThemeData "t" [] (JStr "#000000") (JStr "#ffffff")) "accent"
    ≠ Some (JStr "#38d6fa").
Proof. vm_compute. repeat split; discriminate. Qed.

(** C2, amended.  For a structured descriptor that is a mapping holding
    neither [colors.terminal] nor [apps.alacritty], the [colors] mapping
    of the result is empty: none of the 6 roles is present.  The per-role
    constants are what the roles take when the sub-mapping is present and
    holds none of the six source keys. *)
Theorem missing_submappings_give_no_roles name td toml :
  lacks_submapping td "colors" "terminal" = true →
  lacks_submapping td "apps" "alacritty" = true →
  structured_colors td = Return []
  ∧ (∀ r, extract_theme_colors name (JsonParsed td) toml = Return (Some r) →
          colors r = [])
  ∧ (∀ td' fields,
       submapping td' "colors" "terminal" = Some (JObj fields) →
       Forall (λ k, Json.assoc k fields = None) canonical_names →
       structured_colors td' = Return structured_fallback).
Proof.
  intros Ht Ha.
  destruct (structured_no_key_error name td Ht Ha) as [Hc Hne].
  split; [done|]. split.
  - intros r Hr. apply extract_cases in Hr as [(td' & [= <-] & Hr)|(Hn & _)].
    + apply structured_extract_colors in Hr. congruence.
    + done.
  - intros td' fields Hs Hk.
    destruct (has_path_submapping _ _ _ _ Hs) as [Hp Hg].
    unfold structured_colors. rewrite Hp. simpl.
    destruct (Json.getitem td' "colors") as [c|]; simpl in *; [|done].
    rewrite Hg. simpl. unfold roles_of_json. simpl.
    unfold canonical_names in Hk.
    repeat (apply Forall_cons in Hk as [Hx Hk]; rewrite Hx; clear Hx).
    reflexivity.
Qed.

Lemma missing_submappings_give_no_roles_witness :
  lacks_submapping (JObj [("colors", JObj [])]) "colors" "terminal" = true
  ∧ lacks_submapping (JObj [("colors", JObj [])]) "apps" "alacritty" = true
  ∧ structured_colors (JObj [("colors", JObj [])]) = Return [].
Proof.
  split; [reflexivity|]. split; [reflexivity|].
  apply (missing_submappings_give_no_roles "t" (JObj [("colors", JObj [])])
           Missing); reflexivity.
Defined.

(** C1, as stated, fails: a descriptor without sub-mapping gives a result
    whose [colors] mapping is wholly empty, and a descriptor whose entry
    is not a string gives a role that holds no colour string. *)
Lemma always_populated_counterexample :
  extract_theme_colors "t" (JsonParsed (JObj [])) Missing
    = Return (Some (ThemeData "t" [] (JStr "#000000") (JStr "#ffffff")))
  ∧ fully_populated (ThemeData "t" [] (JStr "#000000") (JStr "#ffffff")) = false
  ∧ (∃ r, extract_theme_colors "t"
            (JsonParsed (JObj [("colors", JObj [("terminal",
               JObj [("blue", JNull)])])])) Missing
          = Return (Some r)
          ∧ role_value r "accent" = Some JNull
          ∧ fully_populated r = false).
Proof.
  split; [reflexivity|]. split; [reflexivity|].
  eexists. split; [reflexivity|]. split; reflexivity.
Qed.

(** C1, amended.  For every theme source processed without a fatal
    error, the [colors] mapping of the result is never partially
    populated: as soon as it holds a role it holds all 6, in the
    program's order.  When the result comes from the line-oriented file,
    all 8 roles hold a colour [#rrggbb].  When the structured descriptor
    is a mapping with a [colors.terminal] or an [apps.alacritty]
    sub-mapping, all 6 roles are present. *)
Theorem result_never_partial name jf toml r :
  extract_theme_colors name jf toml = Return (Some r) →
  (colors r ≠ [] → map fst (colors r) = role_names)
  ∧ (structured_gives_nothing name jf → holds_colors r)
  ∧ (∀ td m, jf = JsonParsed td →
       submapping td "colors" "terminal" = Some m
       ∨ submapping td "apps" "alacritty" = Some m →
       map fst (colors r) = role_names).
Proof.
  intros Hr.
  destruct (extract_cases _ _ _ _ Hr) as [(td & -> & Hs)|(Hn & Ht & ->)].
  - pose proof (structured_extract_colors _ _ _ Hs) as Hc.
    split; [|split].
    + intros Hne. by destruct (structured_colors_keys _ _ Hc).
    + simpl. intros Hk. congruence.
    + intros td' m [= <-] Hsub.
      destruct (structured_colors_keys _ _ Hc) as [He|]; [|done].
      exfalso. rewrite He in Hc. unfold structured_colors in Hc.
      destruct Hsub as [Hsub|Hsub];
        destruct (has_path_submapping _ _ _ _ Hsub) as [Hp Hg].
      * rewrite Hp in Hc. simpl in Hc.
        destruct (Json.getitem td "colors") as [c|]; simpl in *; [|done].
        rewrite Hg in Hc. simpl in Hc.
        apply roles_of_json_keys in Hc. done.
      * destruct (Json.has_path td "colors" "terminal") as [[|]|];
          simpl in Hc; try done.
        -- destruct (Json.getitem td "colors") as [c|]; simpl in *; [|done].
           destruct (Json.getitem c "terminal") as [t|]; simpl in *; [|done].
           apply roles_of_json_keys in Hc. done.
        -- rewrite Hp in Hc. simpl in Hc.
           destruct (Json.getitem td "apps") as [x|]; simpl in *; [|done].
           rewrite Hg in Hc. simpl in Hc.
           destruct (Json.getitem m "colors") as [z|]; simpl in *; [|done].
           destruct (Json.getitem z "normal") as [w|]; simpl in *; [|done].
           apply roles_of_json_keys in Hc. done.
  - pose proof (line_extract_holds_colors name toml) as Hh.
    split; [|split].
    + intros _. by destruct Hh.
    + done.
    + intros _ _ _ _. by destruct Hh.
Qed.

Lemma result_never_partial_witness :
  extract_theme_colors "t" JsonMissing (Content demo_toml)
    = Return (Some (line_extract "t" (Content demo_toml)))
  ∧ holds_colors (line_extract "t" (Content demo_toml)).
Proof.
  split; [reflexivity|].
  apply (result_never_partial "t" JsonMissing (Content demo_toml)
           (line_extract "t" (Content demo_toml)) eq_refl).
  exact I.
Defined.

(** ** The line-oriented path *)

Lemma fill_from_bright_lookup bright colors x k :
  fill_from_bright bright colors x !! k =
  match colors !! k with
  | Some v => Some v
  | None => if bool_decide (k = x) then bright !! k else None
  end.
Proof.
  unfold fill_from_bright.
  destruct (colors !! x) as [vx|] eqn:Ex.
  - destruct (colors !! k) eqn:Ek; [done|].
    case_bool_decide; [congruence|done].
  - destruct (bright !! x) as [bx|] eqn:Eb.
    + rewrite lookup_insert. case_decide as Hd.
      * subst. rewrite Ex, Eb. by rewrite bool_decide_eq_true_2.
      * destruct (colors !! k); [done|].
        by rewrite bool_decide_eq_false_2 by congruence.
    + destruct (colors !! k); [done|].
      case_bool_decide; [by subst|done].
Qed.

Lemma foldl_fill_lookup bright names colors k :
  foldl (fill_from_bright bright) colors names !! k =
  match colors !! k with
  | Some v => Some v
  | None => if bool_decide (k ∈ names) then bright !! k else None
  end.
Proof.
  revert colors. induction names as [|x names IH]; intros colors.
  - simpl. destruct (colors !! k); done.
  - cbn [foldl]. rewrite IH, fill_from_bright_lookup.
    destruct (colors !! k); [done|].
    destruct (decide (k = x)) as [->|Hne].
    + rewrite (bool_decide_eq_true_2 (x = x)) by done.
      rewrite (bool_decide_eq_true_2 (x ∈ x :: names)) by set_solver.
      destruct (bright !! x); [done|]. by case_bool_decide.
    + rewrite (bool_decide_eq_false_2 (k = x)) by done.
      rewrite (bool_decide_ext (k ∈ x :: names) (k ∈ names))
        by (rewrite elem_of_cons; intuition congruence).
      done.
Qed.

Lemma merge_colors_lookup normal bright k :
  merge_colors normal bright !! k =
  match normal !! k with
  | Some v => Some v
  | None => if bool_decide (k ∈ canonical_names) then bright !! k else None
  end.
Proof. apply foldl_fill_lookup. Qed.

Lemma is_empty_map_false (d : gmap string string) k v :
  d !! k = Some v → is_empty_map d = false.
Proof.
  intros H. apply bool_decide_eq_false_2. intros ->.
  by rewrite lookup_empty in H.
Qed.

(** C6.  The merged colour map is the normal-section map in which each of
    the 6 canonical names it misses is filled from the bright-section map
    when present there.  So a [red] of the normal section is the resolved
    [error] role, whatever the bright section holds, and a [blue] that
    only the bright section holds is the resolved [accent] role. *)
Theorem normal_over_bright name jf toml :
  let st := scan_file toml in
  (∀ k, fst (parse_toml_colors toml) !! k =
        match normal_colors st !! k with
        | Some v => Some v
        | None =>
            if bool_decide (k ∈ canonical_names) then bright_colors st !! k
            else None
        end)
  ∧ (∀ r v, structured_gives_nothing name jf →
       extract_theme_colors name jf toml = Return (Some r) →
       normal_colors st !! "red" = Some v →
       role_value r "error" = Some (JStr v))
  ∧ (∀ r v, structured_gives_nothing name jf →
       extract_theme_colors name jf toml = Return (Some r) →
       normal_colors st !! "blue" = None →
       bright_colors st !! "blue" = Some v →
       role_value r "accent" = Some (JStr v)).
Proof.
  intros st. split; [|split].
  - intros k. apply merge_colors_lookup.
  - intros r v Hn Hr Hred.
    rewrite (extract_gives_nothing _ _ _ Hn) in Hr.
    destruct toml; simpl in Hr; try discriminate; injection Hr as <-;
      unfold line_extract, parse_toml_colors, role_value; fold st;
      pose proof (merge_colors_lookup (normal_colors st) (bright_colors st) "red")
        as Hm; rewrite Hred in Hm;
      rewrite (is_empty_map_false _ _ _ Hm); simpl;
      unfold map_get; by rewrite Hm.
  - intros r v Hn Hr Hnone Hblue.
    rewrite (extract_gives_nothing _ _ _ Hn) in Hr.
    destruct toml; simpl in Hr; try discriminate; injection Hr as <-;
      unfold line_extract, parse_toml_colors, role_value; fold st;
      pose proof (merge_colors_lookup (normal_colors st) (bright_colors st) "blue")
        as Hm; rewrite Hnone in Hm; simpl in Hm; rewrite Hblue in Hm;
      rewrite (is_empty_map_false _ _ _ Hm); simpl;
      unfold map_get; by rewrite Hm.
Qed.

Example both_red_demo :
  extract_theme_colors "t" JsonMissing (Content both_red_toml)
  = Return (Some (ThemeData "t"
      [("accent", JStr "#5555ff"); ("primary", JStr "#8be9fd");
       ("secondary", JStr "#ff79c6"); ("success", JStr "#50fa7b");
       ("warning", JStr "#f1fa8c"); ("error", JStr "#aa0000")]
      (JStr "#282a36") (JStr "#f8f8f2"))).
Proof. vm_compute. reflexivity. Qed.

(** C7.  When the merged colour map of the line-oriented file is empty,
    the 6 roles of the result are the fixed grayscale constants; the
    scheme is the same for every foreground the file may hold. *)
Theorem monochrome_degeneration name jf toml :
  structured_gives_nothing name jf →
  toml ≠ Missing →
  fst (parse_toml_colors toml) = ∅ →
  (∃ r, extract_theme_colors name jf toml = Return (Some r)
        ∧ colors r = grayscale
        ∧ colors r = monochrome_colors (monochrome_foreground toml))
  ∧ (∀ foreground, monochrome_colors foreground = grayscale).
Proof.
  intros Hn Ht He. split; [|done].
  rewrite (extract_gives_nothing _ _ _ Hn).
  exists (line_extract name toml).
  split; [by destruct toml|].
  unfold line_extract. destruct (parse_toml_colors toml) as [m p].
  simpl in He. subst m. simpl. done.
Qed.

Lemma monochrome_degeneration_witness :
  structured_gives_nothing "t" JsonMissing
  ∧ Content bare_toml ≠ Missing
  ∧ fst (parse_toml_colors (Content bare_toml)) = ∅
  ∧ monochrome_foreground (Content bare_toml) = "#123456"
  ∧ ∃ r, extract_theme_colors "t" JsonMissing (Content bare_toml)
         = Return (Some r)
         ∧ colors r = grayscale
         ∧ colors r = monochrome_colors (monochrome_foreground (Content bare_toml)).
Proof.
  assert (fst (parse_toml_colors (Content bare_toml)) = ∅) as He
    by (vm_compute; reflexivity).
  assert (Content bare_toml ≠ Missing) as Hm by discriminate.
  split; [exact I|]. split; [exact Hm|]. split; [exact He|].
  split; [vm_compute; reflexivity|].
  apply (monochrome_degeneration "t" JsonMissing (Content bare_toml) I Hm He).
Defined.

(** C9, as stated, fails: when the primary section holds [background]
    only, the text is not searched, so a [foreground] assignment found
    elsewhere in the file is not used and the fixed default stays. *)
Lemma grounds_counterexample :
  snd (parse_toml_colors (Content cursor_toml)) = {["background" := "#222222"]}
  ∧ foreground (line_extract "t" (Content cursor_toml)) = JStr "#f8f8f2"
  ∧ snd (stated_grounds (Content cursor_toml)) = "#111111"
  ∧ foreground (line_extract "t" (Content cursor_toml))
    ≠ JStr (snd (stated_grounds (Content cursor_toml))).
Proof. vm_compute. repeat split; discriminate. Qed.

(** C9, amended.  In the line-oriented path each of background and
    foreground is the primary-section map's entry when that key is
    present.  A key the map misses gives the fixed default.  The raw text
    is searched only when the primary-section map is empty; each field is
    then the default, overwritten independently by the colour its own
    pattern finds. *)
Theorem grounds_resolution name toml :
  let primary := snd (parse_toml_colors toml) in
  let r := line_extract name toml in
  (∀ v, primary !! "background" = Some v → background r = JStr v)
  ∧ (∀ v, primary !! "foreground" = Some v → foreground r = JStr v)
  ∧ (primary ≠ ∅ → primary !! "background" = None →
     background r = JStr "#282a36")
  ∧ (primary ≠ ∅ → primary !! "foreground" = None →
     foreground r = JStr "#f8f8f2")
  ∧ (primary = ∅ →
     background r = JStr (rescan toml "background" "#282a36")
     ∧ foreground r = JStr (rescan toml "foreground" "#f8f8f2"))
  ∧ (∀ text, toml = Content text →
     rescan toml "background" "#282a36"
       = from_option (λ d, "#" +:+ d) "#282a36" (Re.search_field "background" text)
     ∧ rescan toml "foreground" "#f8f8f2"
       = from_option (λ d, "#" +:+ d) "#f8f8f2" (Re.search_field "foreground" text)).
Proof.
  intros primary r. subst r. unfold line_extract.
  destruct (parse_toml_colors toml) as [m p] eqn:E. simpl in primary.
  subst primary. simpl.
  repeat split.
  - intros v Hv. rewrite (is_empty_map_false _ _ _ Hv).
    unfold map_get. by rewrite Hv.
  - intros v Hv. rewrite (is_empty_map_false _ _ _ Hv).
    unfold map_get. by rewrite Hv.
  - intros Hne Hk. unfold is_empty_map. rewrite bool_decide_eq_false_2 by done.
    unfold map_get. by rewrite Hk.
  - intros Hne Hk. unfold is_empty_map. rewrite bool_decide_eq_false_2 by done.
    unfold map_get. by rewrite Hk.
  - subst p. reflexivity.
  - subst p. reflexivity.
  - subst toml. simpl. by destruct (Re.search_field "background" text).
  - subst toml. simpl. by destruct (Re.search_field "foreground" text).
Qed.

Example cursor_grounds_demo :
  background (line_extract "t" (Content cursor_toml)) = JStr "#222222"
  ∧ foreground (line_extract "t" (Content bare_toml)) = JStr "#123456"
  ∧ background (line_extract "t" (Content bare_toml)) = JStr "#282a36".
Proof. vm_compute. done. Qed.

(** ** The removal pass of the merger *)

Lemma startswith_app s p q :
  PyStr.startswith s (p +:+ q) = true → PyStr.startswith s p = true.
Proof.
  revert s. induction p as [|a p IH]; intros s; [by destruct s|].
  destruct s as [|b s]; simpl; [done|].
  intros [-> H]%andb_true_iff. rewrite (IH _ H). done.
Qed.

Lemma header_not_leaves s : is_theme_header s = true → leaves_theme s = false.
Proof.
  unfold is_theme_header, leaves_theme.
  intros [H|H]%orb_true_iff.
  - apply String.eqb_eq in H. by subst.
  - apply (startswith_app s "[theme" ".") in H. rewrite H.
    by rewrite andb_false_r.
Qed.

Lemma section_open_spec before :
  section_open (rev before) = true ↔
  ∃ pre h mid, before = pre ++ h :: mid ∧ theme_header_line h
               ∧ Forall (λ x, ¬ other_header_line x) mid.
Proof.
  induction before as [|x before IH] using rev_ind.
  - simpl. split; [done|]. intros (pre & h & mid & H & _).
    by destruct pre.
  - rewrite rev_app_distr. simpl.
    destruct (is_theme_header (PyStr.strip x)) eqn:Hh.
    + split; [|done]. intros _. exists before, x, []. by split.
    + destruct (leaves_theme (PyStr.strip x)) eqn:Hl.
      * split; [done|]. intros (pre & h & mid & H & Hhd & Hmid).
        destruct mid as [|m mid _] using rev_ind.
        -- apply app_inj_tail in H as [_ ->].
           unfold theme_header_line in Hhd. congruence.
        -- rewrite app_comm_cons, app_assoc in H.
           apply app_inj_tail in H as [_ ->].
           rewrite Forall_app, Forall_singleton in Hmid.
           by destruct Hmid as [_ []].
      * rewrite IH. split.
        -- intros (pre & h & mid & -> & Hhd & Hmid).
           exists pre, h, (mid ++ [x]). split; [by rewrite <- app_assoc|].
           split; [done|]. rewrite Forall_app, Forall_singleton.
           split; [done|]. unfold other_header_line. congruence.
        -- intros (pre & h & mid & H & Hhd & Hmid).
           destruct mid as [|m mid _] using rev_ind.
           ++ apply app_inj_tail in H as [_ ->].
              unfold theme_header_line in Hhd. congruence.
           ++ rewrite app_comm_cons, app_assoc in H.
              apply app_inj_tail in H as [-> ->].
              apply Forall_app in Hmid as [Hmid _].
              exists pre, h, mid. done.
Qed.

Lemma is_theme_line_spec before line :
  is_theme_line before line = true ↔ theme_line before line.
Proof.
  unfold is_theme_line, theme_line, inside_theme_section.
  rewrite orb_true_iff, andb_true_iff, negb_true_iff, section_open_spec.
  split.
  - intros [H|[Hl (pre & h & mid & -> & Hh & Hmid)]]; [by left|].
    right. exists pre, h, mid. repeat split; try done.
    rewrite Forall_app, Forall_singleton. split; [done|].
    unfold other_header_line. congruence.
  - intros [H|(pre & h & mid & -> & Hh & Hmid)]; [by left|].
    rewrite Forall_app, Forall_singleton in Hmid. destruct Hmid as [Hmid Hl].
    right. split; [|by exists pre, h, mid].
    unfold other_header_line in Hl. by destruct (leaves_theme _).
Qed.

Lemma removal_pass_snoc before line :
  removal_pass (before ++ [line]) = removal_step (removal_pass before) line.
Proof. unfold removal_pass. by rewrite foldl_app. Qed.

Lemma removal_pass_skip before :
  skip_theme_section (removal_pass before) = section_open (rev before).
Proof.
  induction before as [|x before IH] using rev_ind; [done|].
  rewrite removal_pass_snoc, rev_app_distr. simpl.
  unfold removal_step. rewrite IH.
  destruct (is_theme_header (PyStr.strip x)); [done|].
  destruct (leaves_theme (PyStr.strip x)), (section_open (rev before)); done.
Qed.

Lemma removal_pass_new_lines before line :
  new_lines (removal_pass (before ++ [line])) =
  new_lines (removal_pass before)
  ++ (if is_theme_line before line then [] else [line]).
Proof.
  rewrite removal_pass_snoc. unfold removal_step, is_theme_line.
  rewrite removal_pass_skip.
  destruct (is_theme_header (PyStr.strip line)); simpl; [by rewrite app_nil_r|].
  destruct (leaves_theme (PyStr.strip line)), (section_open (rev before));
    simpl; by rewrite ?app_nil_r.
Qed.

Lemma removal_pass_frame before rest :
  new_lines (removal_pass (before ++ rest)) =
  new_lines (removal_pass before) ++ frame before rest.
Proof.
  revert before. induction rest as [|l rest IH]; intros before; simpl.
  - by rewrite !app_nil_r.
  - rewrite (cons_middle l before rest), app_assoc, IH.
    rewrite removal_pass_new_lines. by rewrite <- app_assoc.
Qed.

Lemma terminate_last_cases ls :
  terminate_last ls = ls ∨ terminate_last ls = ls ++ [NL].
Proof.
  unfold terminate_last. destruct (last ls); [|by left].
  destruct (PyStr.ends_with_char _ _); auto.
Qed.

(** C5.  The removal pass keeps, verbatim and in their order, exactly the
    lines that are neither a [[theme]]/[[theme.*]] header nor inside a
    theme section, a section lasting until the next header line that does
    not begin with [[theme]; only those theme lines are dropped.  The
    kept lines open the list written back: after them come at most one
    newline, closing an unterminated last line, and the theme block. *)
Theorem removal_keeps_other_lines theme lines :
  new_lines (removal_pass lines) = frame [] lines
  ∧ (∀ before line, is_theme_line before line = true ↔ theme_line before line)
  ∧ (∀ before line,
       new_lines (removal_pass (before ++ [line])) =
       new_lines (removal_pass before)
       ++ (if is_theme_line before line then [] else [line]))
  ∧ (merged_lines theme lines = frame [] lines ++ theme_block theme
     ∨ merged_lines theme lines = frame [] lines ++ [NL] ++ theme_block theme)
  ∧ frame [] lines `sublist_of` lines.
Proof.
  assert (new_lines (removal_pass lines) = frame [] lines) as Hf.
  { by rewrite <- (app_nil_l lines) at 1; rewrite removal_pass_frame. }
  split; [done|]. split; [apply is_theme_line_spec|].
  split; [apply removal_pass_new_lines|]. split.
  - unfold merged_lines. rewrite Hf.
    destruct (terminate_last_cases (frame [] lines)) as [->| ->]; [by left|].
    right. by rewrite <- app_assoc.
  - clear Hf. generalize (@nil string).
    induction lines as [|l lines IH]; intros before.
    + constructor.
    + simpl. destruct (is_theme_line before l); simpl.
      * apply sublist_cons, IH.
      * apply sublist_skip, IH.
Qed.

(** ** Lines and texts *)

#[local] Arguments String.append !_ _ / : simpl nomatch.

Lemma str_app_assoc (a b c : string) : (a +:+ b) +:+ c = a +:+ (b +:+ c).
Proof. induction a as [|x a IH]; simpl; [done|]. by rewrite IH. Qed.

Lemma str_app_nil_r (a : string) : a +:+ "" = a.
Proof. induction a as [|x a IH]; simpl; [done|]. by rewrite IH. Qed.

Lemma str_app_length (a b : string) :
  String.length (a +:+ b) = String.length a + String.length b.
Proof. induction a as [|x a IH]; simpl; [done|]. by rewrite IH. Qed.

Lemma writelines_app l1 l2 :
  PyStr.writelines (l1 ++ l2) = PyStr.writelines l1 +:+ PyStr.writelines l2.
Proof.
  induction l1 as [|x l1 IH]; simpl; [done|].
  by rewrite IH, str_app_assoc.
Qed.

Lemma no_newline_app a b :
  no_newline (a +:+ b) = no_newline a && no_newline b.
Proof.
  induction a as [|x a IH]; simpl; [done|].
  by rewrite IH, andb_assoc.
Qed.

Lemma readlines_line body rest :
  no_newline body = true →
  PyStr.readlines ((body +:+ NL) +:+ rest) = (body +:+ NL) :: PyStr.readlines rest.
Proof.
  induction body as [|c body IH]; simpl.
  - done.
  - intros [Hc Hb]%andb_true_iff. apply negb_true_iff in Hc.
    rewrite Hc, (IH Hb). done.
Qed.

Lemma readlines_terminated ls rest :
  Forall terminated ls →
  PyStr.readlines (PyStr.writelines ls +:+ rest) = ls ++ PyStr.readlines rest.
Proof.
  induction 1 as [|l ls (body & -> & Hb) _ IH]; simpl; [done|].
  by rewrite str_app_assoc, readlines_line, IH.
Qed.

Lemma readlines_well_lined text : well_lined (PyStr.readlines text).
Proof.
  induction text as [|c text IH]; simpl.
  - constructor.
  - destruct (Ascii.eqb c Chr.nl) eqn:Hc.
    + apply Ascii.eqb_eq in Hc as ->.
      by apply (wl_cons EmptyString).
    + inversion IH as [|b Hb Hne Heq|body ls Hb Hls Heq].
      * apply wl_tail; [|done]. simpl. by rewrite Hc.
      * apply wl_tail; [|done]. simpl. by rewrite Hc, Hb.
      * apply (wl_cons (String c body)); [|done]. simpl. by rewrite Hc, Hb.
Qed.

Lemma well_lined_tail x ls : well_lined (x :: ls) → well_lined ls.
Proof. inversion 1; subst; [constructor|done]. Qed.

Lemma well_lined_sublist l1 l2 :
  l1 `sublist_of` l2 → well_lined l2 → well_lined l1.
Proof.
  induction 1 as [|x l1 l2 Hs IH|x l1 l2 Hs IH]; intros Hw.
  - done.
  - inversion Hw as [|b Hb Hne Heq|body ls Hb Hls Heq]; subst.
    + apply sublist_nil_r in Hs as ->. by apply wl_tail.
    + apply wl_cons; auto.
  - eauto using well_lined_tail.
Qed.

Lemma ends_with_nl_terminated body :
  PyStr.ends_with_char (body +:+ NL) Chr.nl = true.
Proof.
  induction body as [|c body IH]; [done|].
  simpl. destruct (body +:+ NL) eqn:E; [|done].
  by destruct body.
Qed.

Lemma ends_with_nl_plain b :
  no_newline b = true → PyStr.ends_with_char b Chr.nl = false.
Proof.
  induction b as [|c b IH]; [done|]. simpl.
  intros [Hc Hb]%andb_true_iff. apply negb_true_iff in Hc.
  destruct b; [done|]. by apply IH.
Qed.

Lemma terminate_last_cons x ls :
  ls ≠ [] → terminate_last (x :: ls) = x :: terminate_last ls.
Proof.
  intros Hne. unfold terminate_last.
  destruct ls as [|y ls]; [done|]. rewrite last_cons.
  destruct (last (y :: ls)) as [l|] eqn:E; [|by apply last_None in E].
  by destruct (PyStr.ends_with_char l Chr.nl).
Qed.

Lemma close_terminated body : close_line (body +:+ NL) = body +:+ NL.
Proof. unfold close_line. by rewrite ends_with_nl_terminated. Qed.

(** Written out, the kept lines are terminated lines. *)
Lemma terminate_last_closed ls :
  well_lined ls →
  PyStr.writelines (terminate_last ls) = PyStr.writelines (map close_line ls)
  ∧ Forall terminated (map close_line ls).
Proof.
  induction 1 as [|b Hb Hne|body ls Hb Hw [IH1 IH2]].
  - done.
  - unfold terminate_last, close_line. simpl.
    rewrite (ends_with_nl_plain b Hb). simpl. split.
    + by rewrite !str_app_nil_r.
    + repeat constructor. by exists b.
  - simpl. rewrite close_terminated. split.
    + destruct ls as [|y ls].
      * unfold terminate_last. simpl. by rewrite ends_with_nl_terminated.
      * rewrite terminate_last_cons by done. simpl. by rewrite IH1.
    + constructor; [by exists body|done].
Qed.

(** ** Stripping *)

Lemma rtrim_snoc f s c :
  f c = true → PyStr.rtrim f (s +:+ String c "") = PyStr.rtrim f s.
Proof.
  intros Hc. induction s as [|a s IH]; simpl.
  - by rewrite Hc.
  - by rewrite IH.
Qed.

Lemma ltrim_app f s t :
  PyStr.ltrim f (s +:+ t) =
  match PyStr.ltrim f s with
  | EmptyString => PyStr.ltrim f t
  | r => r +:+ t
  end.
Proof.
  induction s as [|a s IH]; simpl; [done|].
  destruct (f a); [done|]. reflexivity.
Qed.

Lemma strip_close l : PyStr.strip (l +:+ NL) = PyStr.strip l.
Proof.
  unfold PyStr.strip. rewrite ltrim_app.
  destruct (PyStr.ltrim PyStr.is_space l) as [|c r]; [done|].
  by apply rtrim_snoc.
Qed.

Lemma strip_close_line l : PyStr.strip (close_line l) = PyStr.strip l.
Proof. unfold close_line. destruct (PyStr.ends_with_char _ _); [done|apply strip_close]. Qed.

(** The first character of a line survives stripping when it is no
    white space. *)
Lemma strip_first c s :
  PyStr.is_space c = false → ∃ r, PyStr.strip (String c s) = String c r.
Proof.
  intros Hc. unfold PyStr.strip. simpl. rewrite Hc. simpl.
  destruct (PyStr.rtrim PyStr.is_space s); rewrite ?Hc; eauto.
Qed.

Lemma startswith_cons c r a p :
  PyStr.startswith (String c r) (String a p)
  = Ascii.eqb a c && PyStr.startswith r p.
Proof. reflexivity. Qed.

Lemma plain_line_not_header c s :
  PyStr.is_space c = false → Ascii.eqb Chr.lbracket c = false →
  is_theme_header (PyStr.strip (String c s)) = false
  ∧ leaves_theme (PyStr.strip (String c s)) = false.
Proof.
  intros Hs Hb. destruct (strip_first c s Hs) as [r ->].
  unfold is_theme_header, leaves_theme, Chr.lbracket in *.
  rewrite !startswith_cons, Hb. split; [|done].
  rewrite orb_false_r. apply String.eqb_neq. intros [= -> _].
  discriminate.
Qed.

Lemma assignment_not_header k v :
  plain_key k = true →
  is_theme_header (PyStr.strip (assignment k v)) = false
  ∧ leaves_theme (PyStr.strip (assignment k v)) = false.
Proof.
  destruct k as [|c k]; [done|]. simpl.
  intros [Hs Hb]%andb_true_iff.
  apply negb_true_iff in Hs. apply negb_true_iff in Hb.
  unfold assignment. simpl. by apply plain_line_not_header.
Qed.

Lemma assignment_terminated k v :
  no_newline k = true → no_newline v = true → terminated (assignment k v).
Proof.
  intros Hk Hv. exists (k +:+ " = " +:+ DQ +:+ v +:+ DQ). split.
  - unfold assignment. by rewrite !str_app_assoc.
  - rewrite !no_newline_app, Hk, Hv. done.
Qed.

(** ** Running the removal pass over its own output *)

Lemma foldl_removal_clean acc ls :
  Forall (λ l, is_theme_header (PyStr.strip l) = false) ls →
  foldl removal_step (RemovalState acc false) ls = RemovalState (acc ++ ls) false.
Proof.
  intros H. revert acc. induction H as [|l ls Hl _ IH]; intros acc; simpl.
  - by rewrite app_nil_r.
  - unfold removal_step at 2. rewrite Hl. simpl.
    rewrite IH. by rewrite <- app_assoc.
Qed.

Lemma foldl_removal_skip acc ls :
  Forall (λ l, leaves_theme (PyStr.strip l) = false) ls →
  foldl removal_step (RemovalState acc true) ls = RemovalState acc true.
Proof.
  intros H. induction H as [|l ls Hl _ IH]; simpl; [done|].
  unfold removal_step at 2. rewrite Hl. simpl.
  destruct (is_theme_header (PyStr.strip l)); exact IH.
Qed.

Lemma frame_no_header before rest :
  Forall (λ l, is_theme_header (PyStr.strip l) = false) (frame before rest).
Proof.
  revert before. induction rest as [|l rest IH]; intros before; simpl.
  - constructor.
  - destruct (is_theme_line before l) eqn:E; simpl; [apply IH|].
    constructor; [|apply IH].
    unfold is_theme_line in E. by apply orb_false_iff in E as [? _].
Qed.

Lemma frame_sublist before rest : frame before rest `sublist_of` rest.
Proof.
  revert before. induction rest as [|l rest IH]; intros before; simpl.
  - constructor.
  - destruct (is_theme_line before l); simpl.
    + apply sublist_cons, IH.
    + apply sublist_skip, IH.
Qed.

Lemma removal_pass_is_frame lines :
  new_lines (removal_pass lines) = frame [] lines.
Proof. by rewrite <- (app_nil_l lines) at 1; rewrite removal_pass_frame. Qed.

Lemma theme_block_text theme :
  PyStr.writelines (theme_block theme) = PyStr.writelines (block_lines theme).
Proof.
  unfold theme_block, block_lines. simpl. reflexivity.
Qed.

Lemma forallb_Forall_map {A B} (f : A → bool) (g : A → B) (P : B → Prop) l :
  (∀ x, f x = true → P (g x)) → forallb f l = true → Forall P (map g l).
Proof.
  intros Hfg. induction l as [|x l IH]; simpl; [constructor|].
  intros [Hx Hl]%andb_true_iff. constructor; auto.
Qed.

Lemma block_lines_terminated theme :
  plain_theme theme = true → Forall terminated (block_lines theme).
Proof.
  unfold plain_theme. intros H.
  repeat (apply andb_true_iff in H as [H ?]).
  assert (terminated NL) by (by exists EmptyString).
  unfold block_lines. repeat (apply Forall_cons; split); try done.
  - by exists "[theme]".
  - by apply assignment_terminated.
  - by apply assignment_terminated.
  - by exists "[theme.colors]".
  - apply Forall_app. split.
    + eapply forallb_Forall_map; [|eassumption]. simpl.
      intros [k v] Hkv. simpl in *.
      repeat (apply andb_true_iff in Hkv as [Hkv ?]).
      by apply assignment_terminated.
    + repeat (apply Forall_cons; split); try done;
        by apply assignment_terminated.
Qed.

(** After the header of the block, no line of the block leaves the theme
    section. *)
Lemma block_lines_skipped theme :
  plain_theme theme = true →
  Forall (λ l, leaves_theme (PyStr.strip l) = false)
         (drop 2 (block_lines theme)).
Proof.
  unfold plain_theme. intros H.
  repeat (apply andb_true_iff in H as [H ?]).
  unfold block_lines. simpl.
  repeat (apply Forall_cons; split); try done;
    try (by apply assignment_not_header).
  apply Forall_app. split.
  - eapply forallb_Forall_map; [|eassumption]. simpl.
    intros [k v] Hkv. simpl in *.
    repeat (apply andb_true_iff in Hkv as [Hkv ?]).
    by apply assignment_not_header.
  - repeat (apply Forall_cons; split); try done;
      by apply assignment_not_header.
Qed.

Lemma merge_text_once theme text :
  merge_text theme text = kept_text text +:+ PyStr.writelines (theme_block theme).
Proof. unfold merge_text, merged_lines, kept_text. apply writelines_app. Qed.

Lemma kept_lines_closed text :
  let kept := map close_line (frame [] (PyStr.readlines text)) in
  kept_text text = PyStr.writelines kept
  ∧ Forall terminated kept
  ∧ Forall (λ l, is_theme_header (PyStr.strip l) = false) kept.
Proof.
  intros kept. subst kept. unfold kept_text. rewrite removal_pass_is_frame.
  assert (well_lined (frame [] (PyStr.readlines text))) as Hw.
  { eapply well_lined_sublist; [apply frame_sublist|apply readlines_well_lined]. }
  destruct (terminate_last_closed _ Hw) as [H1 H2].
  split; [done|]. split; [done|].
  apply Forall_map. eapply Forall_impl; [apply frame_no_header|].
  intros l Hl. simpl. by rewrite strip_close_line.
Qed.

Lemma readlines_merge_text theme text :
  plain_theme theme = true →
  PyStr.readlines (merge_text theme text)
  = map close_line (frame [] (PyStr.readlines text)) ++ block_lines theme.
Proof.
  intros Hp. rewrite merge_text_once.
  destruct (kept_lines_closed text) as (-> & Ht & _).
  rewrite theme_block_text, readlines_terminated by done.
  f_equal. rewrite <- (str_app_nil_r (PyStr.writelines _)).
  rewrite readlines_terminated by (by apply block_lines_terminated).
  apply app_nil_r.
Qed.

Lemma removal_over_block theme kept :
  plain_theme theme = true →
  Forall (λ l, is_theme_header (PyStr.strip l) = false) kept →
  removal_pass (kept ++ block_lines theme) = RemovalState (kept ++ [NL]) true.
Proof.
  intros Hp Hk. unfold removal_pass. rewrite foldl_app.
  rewrite (foldl_removal_clean [] kept Hk). simpl app.
  pose proof (block_lines_skipped theme Hp) as Hs.
  change (block_lines theme)
    with (NL :: ("[theme]" +:+ NL) :: drop 2 (block_lines theme)).
  cbn [foldl].
  change (removal_step (RemovalState kept false) NL)
    with (RemovalState (kept ++ [NL]) false).
  change (removal_step (RemovalState (kept ++ [NL]) false) ("[theme]" +:+ NL))
    with (RemovalState (kept ++ [NL]) true).
  by apply foldl_removal_skip.
Qed.

(** C4, as stated, fails: the blank line written in front of [[theme]] is
    kept by the next run, which writes one more. *)
Lemma merge_idempotence_counterexample :
  merge_text (Theme.Make "omarchy-nord" "omarchy" [("accent", "#112233")]
                         "#000000" "#ffffff")
    ("[ui]" +:+ NL)
  = "[ui]" +:+ NL +:+ NL +:+ "[theme]" +:+ NL
    +:+ "name = " +:+ DQ +:+ "omarchy-nord" +:+ DQ +:+ NL
    +:+ "source = " +:+ DQ +:+ "omarchy" +:+ DQ +:+ NL
    +:+ NL +:+ "[theme.colors]" +:+ NL
    +:+ "accent = " +:+ DQ +:+ "#112233" +:+ DQ +:+ NL
    +:+ "background = " +:+ DQ +:+ "#000000" +:+ DQ +:+ NL
    +:+ "foreground = " +:+ DQ +:+ "#ffffff" +:+ DQ +:+ NL +:+ NL
  ∧ merge_text (Theme.Make "omarchy-nord" "omarchy" [("accent", "#112233")]
                           "#000000" "#ffffff")
      (merge_text (Theme.Make "omarchy-nord" "omarchy" [("accent", "#112233")]
                              "#000000" "#ffffff")
         ("[ui]" +:+ NL))
    ≠ merge_text (Theme.Make "omarchy-nord" "omarchy" [("accent", "#112233")]
                             "#000000" "#ffffff")
        ("[ui]" +:+ NL).
Proof. split; [vm_compute; reflexivity|]. vm_compute. discriminate. Qed.

(** C4, amended.  For a theme whose strings hold no line break (and whose
    colour keys begin like a key), the merger writes the kept text and
    then the theme block; applied to its own output it writes the same
    kept text, one newline, and the same theme block.  So the text grows
    by one blank line in front of the block and by nothing else: the kept
    lines are the same, none of them is a theme header, and the block
    occurs once, at the end. *)
Theorem merge_twice theme text :
  plain_theme theme = true →
  let block := PyStr.writelines (theme_block theme) in
  merge_text theme text = kept_text text +:+ block
  ∧ merge_text theme (merge_text theme text) = kept_text text +:+ NL +:+ block
  ∧ kept_text (merge_text theme text) = kept_text text +:+ NL
  ∧ Forall (λ l, is_theme_header (PyStr.strip l) = false)
           (PyStr.readlines (kept_text text +:+ NL))
  ∧ merge_text theme (merge_text theme text) ≠ merge_text theme text.
Proof.
  intros Hp block.
  pose proof (merge_text_once theme text) as H1.
  destruct (kept_lines_closed text) as (Hk & Ht & Hh).
  set (kept := map close_line (frame [] (PyStr.readlines text))) in *.
  assert (kept_text (merge_text theme text) = kept_text text +:+ NL) as H2.
  { unfold kept_text at 1. rewrite readlines_merge_text by done. fold kept.
    rewrite removal_over_block by done. simpl.
    unfold terminate_last. rewrite last_snoc. simpl.
    rewrite writelines_app, Hk. simpl. done. }
  split; [done|]. split; [|split; [done|split]].
  - rewrite merge_text_once, H2. by rewrite str_app_assoc.
  - rewrite Hk. rewrite <- (str_app_nil_r NL) at 1.
    change (NL +:+ "") with (PyStr.writelines [NL]).
    rewrite <- writelines_app, <- (str_app_nil_r (PyStr.writelines _)).
    rewrite readlines_terminated, app_nil_r.
    + apply Forall_app. split; [done|]. by repeat constructor.
    + apply Forall_app. split; [done|]. repeat constructor. by exists EmptyString.
  - rewrite (merge_text_once theme (merge_text _ _)), H2, H1.
    intros Heq. apply (f_equal String.length) in Heq.
    rewrite !str_app_length in Heq. simpl in Heq. lia.
Qed.

Lemma merge_twice_witness :
  plain_theme (Theme.Make "omarchy-nord" "omarchy"
                 [("accent", "#112233"); ("error", "#445566")]
                 "#000000" "#ffffff") = true
  ∧ merge_text (Theme.Make "omarchy-nord" "omarchy"
                  [("accent", "#112233"); ("error", "#445566")]
                  "#000000" "#ffffff") ("x = 1")
    = kept_text "x = 1"
      +:+ PyStr.writelines (theme_block (Theme.Make "omarchy-nord" "omarchy"
                  [("accent", "#112233"); ("error", "#445566")]
                  "#000000" "#ffffff")).
Proof.
  split; [reflexivity|].
  apply (merge_twice (Theme.Make "omarchy-nord" "omarchy"
                  [("accent", "#112233"); ("error", "#445566")]
                  "#000000" "#ffffff") "x = 1" eq_refl).
Defined.

(** ** Searching a text for a field *)

Lemma field_at_literal_none field s :
  Re.literal field s = None → Re.field_at field s = None.
Proof. unfold Re.field_at. by intros ->. Qed.

Lemma literal_mismatch lit s i a b :
  String.get i lit = Some a → String.get i s = Some b → a ≠ b →
  Re.literal lit s = None.
Proof.
  revert s i. induction lit as [|x lit IH]; intros s i Ha Hb Hne.
  - by destruct i.
  - destruct s as [|y s]; [by destruct i|].
    cbn [Re.literal]. destruct i as [|i]; simpl in Ha, Hb.
    + injection Ha as ->. injection Hb as ->.
      apply Ascii.eqb_neq in Hne. by rewrite Hne.
    + destruct (Ascii.eqb x y); [|done]. eauto.
Qed.

Lemma field_at_mismatch field s i a b :
  String.get i field = Some a → String.get i s = Some b → a ≠ b →
  Re.field_at field s = None.
Proof. eauto using field_at_literal_none, literal_mismatch. Qed.

Lemma search_field_next field c t :
  Re.field_at field (String c t) = None →
  Re.search_field field (String c t) = Re.search_field field t.
Proof. intros H. by rewrite search_field_eq, H. Qed.

Lemma hex_neq a c : PyStr.is_hex c = true → PyStr.is_hex a = false → a ≠ c.
Proof. intros Hc Ha ->. congruence. Qed.

Lemma lacks_char_app c a b :
  lacks_char c (a +:+ b) = lacks_char c a && lacks_char c b.
Proof.
  induction a as [|x a IH]; simpl; [done|].
  by rewrite IH, andb_assoc.
Qed.

Lemma literal_app_boundary lit s q rest r :
  lacks_char q lit = true →
  Re.literal lit (s +:+ String q rest) = Some r →
  ∃ s', s = lit +:+ s' ∧ r = s' +:+ String q rest.
Proof.
  revert s. induction lit as [|a lit IH]; intros s Hq.
  - destruct s; simpl; intros [= <-]; by eexists.
  - simpl in Hq. apply andb_true_iff in Hq as [Ha Hq].
    apply negb_true_iff in Ha.
    destruct s as [|y s]; cbn [Re.literal String.append].
    + by rewrite Ha.
    + destruct (Ascii.eqb_spec a y) as [->|]; [|done].
      intros H. destruct (IH s Hq H) as (s' & -> & ->). by exists s'.
Qed.

Lemma ltrim_head_lacks c f s :
  lacks_char c s = true →
  match PyStr.ltrim f s with
  | String a _ => Ascii.eqb a c = false
  | EmptyString => True
  end.
Proof.
  induction s as [|x s IH]; simpl; [done|].
  intros [Hx Hs]%andb_true_iff. apply negb_true_iff in Hx.
  destruct (f x); [by apply IH|done].
Qed.

Lemma field_at_in_name field s rest :
  lacks_char Chr.dquote field = true →
  lacks_char Chr.eq_sign s = true →
  Re.field_at field (s +:+ String Chr.dquote rest) = None.
Proof.
  intros Hq Hs. unfold Re.field_at.
  destruct (Re.literal field _) as [r|] eqn:E; [|done].
  destruct (literal_app_boundary _ _ _ _ _ Hq E) as (s' & -> & ->).
  rewrite lacks_char_app in Hs. apply andb_true_iff in Hs as [_ Hs].
  rewrite ltrim_app. pose proof (ltrim_head_lacks _ PyStr.is_space _ Hs) as Hh.
  destruct (PyStr.ltrim PyStr.is_space s') as [|a r']; [done|].
  cbn [String.append]. by rewrite Hh.
Qed.

Lemma search_field_skip_name field s rest :
  lacks_char Chr.dquote field = true →
  lacks_char Chr.eq_sign s = true →
  Re.search_field field (s +:+ String Chr.dquote rest)
  = Re.search_field field (String Chr.dquote rest).
Proof.
  intros Hq. induction s as [|a s IH]; intros Hs; [done|].
  cbn [String.append]. rewrite search_field_next.
  - apply IH. simpl in Hs. by apply andb_true_iff in Hs as [_ ?].
  - by apply (field_at_in_name field (String a s)).
Qed.

(** ** Reading the theme block back *)

Lemma split_line body rest :
  no_newline body = true →
  PyStr.split Chr.nl ((body +:+ NL) +:+ rest) = body :: PyStr.split Chr.nl rest.
Proof.
  induction body as [|c body IH]; simpl; [done|].
  intros [Hc Hb]%andb_true_iff. apply negb_true_iff in Hc.
  by rewrite Hc, (IH Hb).
Qed.

Lemma scan_line_init raw :
  PyStr.startswith (PyStr.strip raw) "[colors." = false →
  scan_line scan_init raw = scan_init.
Proof.
  intros H. unfold scan_line.
  destruct (PyStr.startswith _ "[colors.normal]") eqn:E1.
  { apply (startswith_app _ "[colors." "normal]") in E1. congruence. }
  destruct (PyStr.startswith _ "[colors.bright]") eqn:E2.
  { apply (startswith_app _ "[colors." "bright]") in E2. congruence. }
  destruct (PyStr.startswith _ "[colors.primary]") eqn:E3.
  { apply (startswith_app _ "[colors." "primary]") in E3. congruence. }
  rewrite H. repeat case_match; done.
Qed.

Lemma scan_terminated ls :
  Forall terminated ls →
  Forall (λ l, PyStr.startswith (PyStr.strip l) "[colors." = false) ls →
  scan_content (PyStr.writelines ls) = scan_init.
Proof.
  unfold scan_content.
  induction 1 as [|l ls (body & -> & Hb) _ IH]; intros Hc.
  - reflexivity.
  - apply Forall_cons in Hc as [Hl Hc]. cbn [PyStr.writelines].
    rewrite split_line by done. cbn [foldl].
    rewrite scan_line_init by (by rewrite <- strip_close).
    by apply IH.
Qed.

Lemma plain_line_no_section c s p :
  PyStr.is_space c = false → Ascii.eqb Chr.lbracket c = false →
  PyStr.startswith (PyStr.strip (String c s)) (String Chr.lbracket p) = false.
Proof.
  intros Hs Hb. destruct (strip_first c s Hs) as [r ->].
  by rewrite startswith_cons, Hb.
Qed.

Lemma assignment_no_section k v :
  plain_key k = true →
  PyStr.startswith (PyStr.strip (assignment k v)) "[colors." = false.
Proof.
  destruct k as [|c k]; [done|]. simpl.
  intros [Hs Hb]%andb_true_iff.
  apply negb_true_iff in Hs. apply negb_true_iff in Hb.
  unfold assignment. cbn [String.append]. by apply plain_line_no_section.
Qed.

Lemma block_lines_no_section theme :
  plain_theme theme = true →
  Forall (λ l, PyStr.startswith (PyStr.strip l) "[colors." = false)
         (block_lines theme).
Proof.
  unfold plain_theme. intros H.
  repeat (apply andb_true_iff in H as [H ?]).
  unfold block_lines.
  repeat (apply Forall_cons; split); try done;
    try (by apply assignment_no_section).
  apply Forall_app. split.
  - eapply forallb_Forall_map; [|eassumption]. simpl.
    intros [k v] Hkv. simpl in *.
    repeat (apply andb_true_iff in Hkv as [Hkv ?]).
    by apply assignment_no_section.
  - repeat (apply Forall_cons; split); try done;
      by apply assignment_no_section.
Qed.

Lemma merge_text_empty theme :
  merge_text theme "" = PyStr.writelines (block_lines theme).
Proof. rewrite merge_text_once. by rewrite theme_block_text. Qed.

(** The block on its own opens no section the extractor stores from. *)
Lemma parse_block theme :
  plain_theme theme = true →
  parse_toml_colors (Content (merge_text theme "")) = (∅, ∅).
Proof.
  intros Hp. unfold parse_toml_colors, scan_file.
  rewrite merge_text_empty, scan_terminated; [done| |].
  - by apply block_lines_terminated.
  - by apply block_lines_no_section.
Qed.

Lemma hex_color_shape v :
  is_hex_color v = true →
  ∃ a b c d e f,
    v = String Chr.hash (String a (String b (String c (String d
          (String e (String f EmptyString))))))
    ∧ PyStr.is_hex a = true ∧ PyStr.is_hex b = true ∧ PyStr.is_hex c = true
    ∧ PyStr.is_hex d = true ∧ PyStr.is_hex e = true ∧ PyStr.is_hex f = true.
Proof.
  destruct v as [|h r]; [done|]. unfold is_hex_color.
  intros [Hh Hr]%andb_true_iff. apply Ascii.eqb_eq in Hh as ->.
  apply bool_decide_eq_true in Hr.
  destruct r as [|a [|b [|c [|d [|e [|f r]]]]]]; try discriminate.
  unfold Re.hex6 in Hr.
  destruct (PyStr.is_hex a) eqn:Ha; [|discriminate].
  destruct (PyStr.is_hex b) eqn:Hb; [|discriminate].
  destruct (PyStr.is_hex c) eqn:Hc; [|discriminate].
  destruct (PyStr.is_hex d) eqn:Hd; [|discriminate].
  destruct (PyStr.is_hex e) eqn:He; [|discriminate].
  destruct (PyStr.is_hex f) eqn:Hf; [|discriminate].
  simpl in Hr. injection Hr as <-.
  exists a, b, c, d, e, f. done.
Qed.

(** ** The search over the theme block *)

Lemma literal_app lit x : Re.literal lit (lit +:+ x) = Some x.
Proof.
  induction lit as [|a lit IH]; [by destruct x|].
  cbn [String.append Re.literal]. by rewrite Ascii.eqb_refl.
Qed.

Lemma hex6_digits a b c d e f rest :
  PyStr.is_hex a = true → PyStr.is_hex b = true → PyStr.is_hex c = true →
  PyStr.is_hex d = true → PyStr.is_hex e = true → PyStr.is_hex f = true →
  Re.hex6 (String a (String b (String c (String d (String e (String f rest))))))
  = Some (String a (String b (String c (String d (String e (String f "")))))).
Proof. intros Ha Hb Hc Hd He Hf. unfold Re.hex6. by rewrite Ha, Hb, Hc, Hd, He, Hf. Qed.

(** The pattern matches where the block assigns the field. *)
Lemma field_at_assignment field a b c d e f rest :
  PyStr.is_hex a = true → PyStr.is_hex b = true → PyStr.is_hex c = true →
  PyStr.is_hex d = true → PyStr.is_hex e = true → PyStr.is_hex f = true →
  Re.field_at field
    (field +:+ " = " +:+ DQ +:+
     String Chr.hash (String a (String b (String c (String d (String e
       (String f rest)))))))
  = Some (String a (String b (String c (String d (String e (String f "")))))).
Proof.
  intros Ha Hb Hc Hd He Hf. unfold Re.field_at. rewrite literal_app.
  cbn [String.append PyStr.ltrim PyStr.is_space Ascii.eqb Chr.eq_sign DQ].
  change (PyStr.is_space " ") with true. cbv iota.
  cbn [PyStr.ltrim]. change (PyStr.is_space "=") with false. cbv iota.
  change (Ascii.eqb "=" "=") with true. cbv iota.
  cbn [PyStr.ltrim]. change (PyStr.is_space " ") with true. cbv iota.
  cbn [PyStr.ltrim]. change (PyStr.is_space Chr.dquote) with false. cbv iota.
  unfold Re.quoted_color_at. change (PyStr.is_quote Chr.dquote) with true.
  cbv iota. unfold Re.color_at, Chr.hash. by rewrite hex6_digits.
Qed.

Lemma search_field_found field s g :
  Re.field_at field s = Some g → Re.search_field field s = Some g.
Proof. intros H. by rewrite search_field_eq, H. Qed.

Ltac char_differs :=
  first [ discriminate | eapply hex_neq; [eassumption | reflexivity] ].

Ltac no_field_here :=
  first
    [ eapply (field_at_mismatch _ _ 0); [reflexivity | reflexivity | char_differs]
    | eapply (field_at_mismatch _ _ 1); [reflexivity | reflexivity | char_differs]
    | eapply (field_at_mismatch _ _ 2); [reflexivity | reflexivity | char_differs]
    | eapply (field_at_mismatch _ _ 3); [reflexivity | reflexivity | char_differs] ].

Ltac skip_chars := repeat (rewrite search_field_next by no_field_here).

Ltac skip_name H :=
  rewrite str_app_assoc; cbn [String.append NL];
  rewrite search_field_skip_name by (reflexivity || exact H).

Lemma hex_no_newline v : is_hex_color v = true → no_newline v = true.
Proof.
  intros (a & b & c & d & e & f & -> & Ha & Hb & Hc & Hd & He & Hf)%hex_color_shape.
  assert (∀ x, PyStr.is_hex x = true → Ascii.eqb x Chr.nl = false) as Hx.
  { intros x H. apply Ascii.eqb_neq. intros ->. discriminate. }
  cbn [no_newline]. change (Ascii.eqb Chr.hash Chr.nl) with false.
  by rewrite !Hx by assumption.
Qed.

Lemma palette_roles (cols : list (string * string)) :
  map fst cols = role_names →
  ∃ v1 v2 v3 v4 v5 v6,
    cols = [("accent", v1); ("primary", v2); ("secondary", v3);
            ("success", v4); ("warning", v5); ("error", v6)].
Proof.
  unfold role_names. intros H.
  repeat (destruct cols as [|[? ?] cols]; [discriminate|];
          simpl in H; injection H as -> H).
  destruct cols; [|discriminate]. by repeat eexists.
Qed.

(** What the two searches of the raw text find in the block. *)
Lemma block_search name v1 v2 v3 v4 v5 v6 bg fg :
  plain_name name = true →
  is_hex_color v1 = true → is_hex_color v2 = true → is_hex_color v3 = true →
  is_hex_color v4 = true → is_hex_color v5 = true → is_hex_color v6 = true →
  is_hex_color bg = true → is_hex_color fg = true →
  let text :=
    merge_text (generate_navitone_config (ThemeData name
      [("accent", v1); ("primary", v2); ("secondary", v3);
       ("success", v4); ("warning", v5); ("error", v6)] bg fg)) "" in
  rescan (Content text) "background" "#282a36" = bg
  ∧ rescan (Content text) "foreground" "#f8f8f2" = fg.
Proof.
  intros [_ Hn]%andb_true_iff H1 H2 H3 H4 H5 H6 Hbg Hfg text. subst text.
  rewrite merge_text_empty.
  repeat match goal with
         | H : is_hex_color _ = true |- _ =>
             apply hex_color_shape in H as (? & ? & ? & ? & ? & ? & -> & ? & ? & ? & ? & ? & ?)
         end.
  unfold rescan.
  cbn [generate_navitone_config theme_name colors background foreground
       block_lines Theme.name Theme.source Theme.colors Theme.background
       Theme.foreground map app assignment fst snd PyStr.writelines NL DQ
       String.append].
  split.
  - skip_chars. skip_name Hn. skip_chars.
    erewrite search_field_found; [reflexivity|].
    by apply (field_at_assignment "background").
  - skip_chars. skip_name Hn. skip_chars.
    erewrite search_field_found; [reflexivity|].
    by apply (field_at_assignment "foreground").
Qed.

Lemma generated_theme_plain name v1 v2 v3 v4 v5 v6 bg fg :
  plain_name name = true →
  is_hex_color v1 = true → is_hex_color v2 = true → is_hex_color v3 = true →
  is_hex_color v4 = true → is_hex_color v5 = true → is_hex_color v6 = true →
  is_hex_color bg = true → is_hex_color fg = true →
  plain_theme (generate_navitone_config (ThemeData name
      [("accent", v1); ("primary", v2); ("secondary", v3);
       ("success", v4); ("warning", v5); ("error", v6)] bg fg)) = true.
Proof.
  intros [Hn _]%andb_true_iff H1 H2 H3 H4 H5 H6 Hbg Hfg.
  unfold plain_theme, generate_navitone_config. simpl.
  rewrite Hn. by rewrite !hex_no_newline.
Qed.

Lemma Forall_sublist_of {A} (P : A → Prop) (l1 l2 : list A) :
  l1 `sublist_of` l2 → Forall P l2 → Forall P l1.
Proof.
  induction 1 as [|x l1 l2 _ IH|x l1 l2 _ IH]; intros H; [done| |].
  - apply Forall_cons in H as [? ?]. constructor; auto.
  - apply Forall_cons in H as [_ ?]. auto.
Qed.

(** Merged into a destination without colour section, the block still
    gives the extractor nothing to store. *)
Lemma parse_merged theme text :
  plain_theme theme = true →
  Forall (λ l, PyStr.startswith (PyStr.strip l) "[colors." = false)
         (PyStr.readlines text) →
  parse_toml_colors (Content (merge_text theme text)) = (∅, ∅).
Proof.
  intros Hp Hd. unfold parse_toml_colors, scan_file.
  rewrite merge_text_once, theme_block_text.
  destruct (kept_lines_closed text) as (-> & Ht & _).
  rewrite <- writelines_app, scan_terminated; [done| |].
  - apply Forall_app. split; [done|by apply block_lines_terminated].
  - apply Forall_app. split; [|by apply block_lines_no_section].
    apply Forall_map. eapply Forall_impl.
    + eapply Forall_sublist_of; [apply frame_sublist|exact Hd].
    + intros l Hl. simpl. by rewrite strip_close_line.
Qed.

(** C8, as stated, fails: read back by the line-oriented extractor, the
    block written for a palette gives the grayscale roles, not the roles
    of the palette. *)
Lemma round_trip_counterexample :
  populated_palette demo_palette = true
  ∧ extract_theme_colors "nord" JsonMissing
      (Content (merge_text (generate_navitone_config demo_palette) ""))
    = Return (Some (ThemeData "nord" grayscale (JStr "#2e3440") (JStr "#d8dee9")))
  ∧ extract_theme_colors "nord" JsonMissing
      (Content (merge_text (generate_navitone_config demo_palette) ""))
    ≠ Return (Some (as_json demo_palette))
  ∧ role_value (ThemeData "nord" grayscale (JStr "#2e3440") (JStr "#d8dee9"))
      "accent"
    ≠ role_value (as_json demo_palette) "accent".
Proof. vm_compute. repeat split; discriminate. Qed.

(** C8, amended.  For every fully populated palette of colours [#rrggbb],
    under a theme name without line break and without [=], the theme
    block written to an empty destination and read back by the
    line-oriented extractor reproduces background and foreground only:
    the entries under [[theme.colors]] are in no section the extractor
    stores from, so the 6 roles come back as the fixed grayscale
    constants, whatever the palette holds.  The roles come back so from
    every destination that holds no [[colors.*]] header line. *)
Theorem block_read_back td n :
  populated_palette td = true →
  plain_name (theme_name td) = true →
  extract_theme_colors n JsonMissing
    (Content (merge_text (generate_navitone_config td) ""))
  = Return (Some (ThemeData n grayscale
                    (JStr (background td)) (JStr (foreground td))))
  ∧ (∀ text,
       Forall (λ l, PyStr.startswith (PyStr.strip l) "[colors." = false)
              (PyStr.readlines text) →
       ∃ r, extract_theme_colors n JsonMissing
              (Content (merge_text (generate_navitone_config td) text))
            = Return (Some r)
            ∧ colors r = grayscale).
Proof.
  destruct td as [name cols bg fg]. unfold populated_palette. simpl.
  intros H Hn. repeat (apply andb_true_iff in H as [H ?]).
  apply bool_decide_eq_true in H.
  destruct (palette_roles cols H) as (v1 & v2 & v3 & v4 & v5 & v6 & ->).
  match goal with
  | Hc : forallb _ _ = true |- _ =>
      simpl in Hc; repeat (apply andb_true_iff in Hc as [? Hc])
  end.
  assert (plain_theme (generate_navitone_config (ThemeData name
            [("accent", v1); ("primary", v2); ("secondary", v3);
             ("success", v4); ("warning", v5); ("error", v6)] bg fg)) = true)
    as Hp by (by apply generated_theme_plain).
  split.
  - unfold line_extract. rewrite parse_block by done.
    unfold is_empty_map. rewrite bool_decide_eq_true_2 by done.
    unfold map_get. rewrite !lookup_empty. cbn [default].
    edestruct (block_search name v1 v2 v3 v4 v5 v6 bg fg) as [-> ->]; done.
  - intros text Hd. eexists. split; [reflexivity|].
    unfold line_extract. rewrite parse_merged by done.
    unfold is_empty_map. by rewrite bool_decide_eq_true_2 by done.
Qed.

Lemma block_read_back_witness :
  populated_palette demo_palette = true
  ∧ plain_name (theme_name demo_palette) = true
  ∧ extract_theme_colors "nord" JsonMissing
      (Content (merge_text (generate_navitone_config demo_palette) ""))
    = Return (Some (ThemeData "nord" grayscale
                      (JStr (background demo_palette))
                      (JStr (foreground demo_palette)))).
Proof.
  split; [reflexivity|]. split; [reflexivity|].
  apply (block_read_back demo_palette "nord" eq_refl eq_refl).
Defined.

(** ** What is printed and what is written *)

Lemma scalar_lines_assignments (colors : list (string * string)) :
  map (λ nkv, Dump.scalar_line (fst nkv) (snd nkv))
      (map (λ kv, (fst kv, Dump.Str (snd kv))) colors)
  = map (λ kv, assignment (fst kv) (snd kv)) colors.
Proof. rewrite map_map. by apply map_ext. Qed.

(** X1.  The block [update_navitone_config] appends to the destination is
    a blank line followed by exactly the text [simple_toml_dump] prints
    for the configuration: same lines, same order, background and
    foreground after the colours, under the [[theme.colors]] header. *)
Theorem appended_block_is_dump (theme : Theme.t string) :
  PyStr.writelines (theme_block theme)
  = NL +:+ simple_toml_dump (config_dict theme).
Proof.
  unfold theme_block, simple_toml_dump, config_dict, Dump.section_text.
  cbn [map fst snd PyStr.writelines Dump.entry_text Dump.scalar_line].
  rewrite scalar_lines_assignments.
  rewrite !writelines_app. cbn [PyStr.writelines].
  unfold assignment. rewrite !str_app_assoc, !str_app_nil_r.
  reflexivity.
Qed.

(** ** Outcomes of the extraction and of [main] *)

(** X2.  [extract_theme_colors] returns [None] exactly when the
    structured descriptor gives no data (absent, rejected by [json.load],
    or a [KeyError]) and [alacritty.toml] does not exist; it raises
    exactly when the descriptor cannot be read or the structured path
    raises something else than [KeyError].  An [alacritty.toml] that
    exists, whatever it holds and even unreadable, always gives a result
    once the structured path has given none. *)
Theorem extraction_outcomes name jf toml :
  (extract_theme_colors name jf toml = Return None
   ↔ structured_gives_nothing name jf ∧ toml = Missing)
  ∧ ((∃ e, extract_theme_colors name jf toml = Raise e)
     ↔ jf = JsonUnreadable
       ∨ ∃ td e, jf = JsonParsed td ∧ structured_extract name td = Raise e
                 ∧ e ≠ KeyError)
  ∧ (structured_gives_nothing name jf → toml ≠ Missing →
     extract_theme_colors name jf toml = Return (Some (line_extract name toml))).
Proof.
  split; [|split].
  - split.
    + destruct jf as [| | |td]; simpl.
      * destruct toml; simpl; try discriminate. done.
      * discriminate.
      * destruct toml; simpl; try discriminate. done.
      * destruct (structured_extract name td) as [r|[]]; try discriminate.
        destruct toml; simpl; try discriminate. done.
    + intros [Hn ->]. by rewrite extract_gives_nothing.
  - split.
    + intros [e He]. destruct jf as [| | |td]; simpl in He.
      * by destruct toml.
      * by left.
      * by destruct toml.
      * right. destruct (structured_extract name td) as [r|e'] eqn:E;
          [discriminate|].
        exists td, e'. repeat split; try done. intros ->.
        by destruct toml.
    + intros [->|(td & e & -> & He & Hne)]; simpl.
      * by exists OSError.
      * rewrite He. exists e. by destruct e.
  - intros Hn Ht. rewrite extract_gives_nothing by done. by destruct toml.
Qed.





(** ** What a line of [alacritty.toml] can store *)

Lemma scan_line_cases st raw :
  scan_line st raw = st
  ∨ (∃ sec, scan_line st raw = set_section st sec)
  ∨ (∃ name digits, scan_line st raw = store_color st name ("#" +:+ digits)).
Proof.
  unfold scan_line.
  repeat case_match; eauto.
Qed.

(** X5.  One line of the file changes at most the colour map of the
    section in force: the maps of the other sections are left as they
    are, and a line that changes the section stores nothing. *)
Theorem line_stores_in_current_section st raw :
  (current_section st ≠ SecNormal →
   normal_colors (scan_line st raw) = normal_colors st)
  ∧ (current_section st ≠ SecBright →
     bright_colors (scan_line st raw) = bright_colors st)
  ∧ (current_section st ≠ SecPrimary →
     primary_colors (scan_line st raw) = primary_colors st)
  ∧ (current_section (scan_line st raw) ≠ current_section st →
     normal_colors (scan_line st raw) = normal_colors st
     ∧ bright_colors (scan_line st raw) = bright_colors st
     ∧ primary_colors (scan_line st raw) = primary_colors st).
Proof.
  destruct (scan_line_cases st raw) as [->|[[sec ->]|(name & digits & ->)]].
  - done.
  - done.
  - unfold store_color.
    destruct (current_section st) eqn:E; simpl; rewrite ?E; done.
Qed.

(** ** Names and values stored by [parse_toml_colors] *)

Lemma split_lacks_sep sep s :
  Forall (λ x, lacks_char sep x = true) (PyStr.split sep s).
Proof.
  induction s as [|c s IH]; simpl.
  - by repeat constructor.
  - destruct (Ascii.eqb c sep) eqn:E.
    + by constructor.
    + destruct (PyStr.split sep s) as [|h t].
      * repeat constructor. simpl. by rewrite E.
      * apply Forall_cons in IH as [Hh Ht]. constructor; [|done].
        simpl. by rewrite E, Hh.
Qed.

Lemma last_Forall {A} (P : A → Prop) l d :
  P d → Forall P l → P (List.last l d).
Proof.
  intros Hd. induction 1 as [|x l Hx Hl IH]; [done|].
  simpl. destruct l; [done|]. exact IH.
Qed.

Lemma not_contains_char c s :
  PyStr.contains (String c "") s = false → lacks_char c s = true.
Proof.
  induction s as [|a s IH]; [done|].
  cbn [PyStr.contains lacks_char].
  rewrite startswith_cons. intros [H1 H2]%orb_false_iff.
  rewrite (IH H2), andb_true_r.
  destruct s; simpl in H1; rewrite andb_true_r in H1;
    by rewrite Ascii.eqb_sym, H1.
Qed.

Lemma color_name_no_dot key : lacks_char Chr.dot (color_name_of key) = true.
Proof.
  unfold color_name_of. destruct (PyStr.contains "." key) eqn:E.
  - apply (last_Forall (λ x, lacks_char Chr.dot x = true)); [done|].
    apply split_lacks_sep.
  - by apply not_contains_char.
Qed.

Lemma scan_line_well_stored st raw :
  well_stored (normal_colors st) ∧ well_stored (bright_colors st)
  ∧ well_stored (primary_colors st) →
  well_stored (normal_colors (scan_line st raw))
  ∧ well_stored (bright_colors (scan_line st raw))
  ∧ well_stored (primary_colors (scan_line st raw)).
Proof.
  intros (Hn & Hb & Hp). unfold scan_line.
  repeat case_match; try done.
  match goal with
  | H : Re.search_color _ = Some ?d |- _ =>
      pose proof (hash_digits_hex _ (search_color_hex _ _ H)) as Hd
  end.
  unfold store_color.
  destruct (current_section st); simpl; split_and!; try done;
    apply map_Forall_insert_2; auto using color_name_no_dot.
Qed.

Lemma load_well_stored f :
  well_stored (normal_colors (scan_file f))
  ∧ well_stored (bright_colors (scan_file f))
  ∧ well_stored (primary_colors (scan_file f)).
Proof.
  assert (∀ lines st,
            well_stored (normal_colors st) ∧ well_stored (bright_colors st)
            ∧ well_stored (primary_colors st) →
            well_stored (normal_colors (foldl scan_line st lines))
            ∧ well_stored (bright_colors (foldl scan_line st lines))
            ∧ well_stored (primary_colors (foldl scan_line st lines))) as Hf.
  { induction lines as [|l lines IH]; intros st H; simpl; [done|].
    by apply IH, scan_line_well_stored. }
  assert (well_stored (∅ : gmap string string)) by apply map_Forall_empty.
  destruct f; simpl; try done. by apply Hf.
Qed.

(** X6.  Every entry of the two maps [parse_toml_colors] returns has a
    name without dot (the last dotted segment of its key) and a value in
    the normal form [#] plus six hexadecimal digits, also when the file
    writes the colour as [0x...]; this holds for every file, readable or
    not. *)
Theorem parsed_colors_normalized f :
  well_stored (fst (parse_toml_colors f))
  ∧ well_stored (snd (parse_toml_colors f)).
Proof.
  destruct (load_well_stored f) as (Hn & Hb & Hp).
  unfold parse_toml_colors. simpl. split; [|done].
  unfold merge_colors. generalize canonical_names. intros names.
  revert Hn. generalize (normal_colors (scan_file f)).
  induction names as [|k names IH]; intros normal Hn; simpl; [done|].
  apply IH. unfold fill_from_bright.
  destruct (normal !! k); [done|].
  destruct (bright_colors (scan_file f) !! k) as [v|] eqn:E; [|done].
  apply map_Forall_insert_2; [|done]. by eapply Hb.
Qed.

Example parsed_colors_demo :
  parse_toml_colors (Content
    ("[colors.bright]" +:+ NL +:+ "colors.bright.red = 0xFF0000 # hot" +:+ NL))
  = ({["red" := "#FF0000"]}, ∅).
Proof. vm_compute. reflexivity. Qed.

(** ** Destinations without a theme section *)

(** X7.  The removal pass is idempotent and complete: run over its own
    output it keeps every line and ends outside a theme section, and no
    [[theme]] or [[theme.*]] header line is among the lines it keeps. *)
Theorem removal_is_idempotent lines :
  removal_pass (new_lines (removal_pass lines))
  = RemovalState (new_lines (removal_pass lines)) false
  ∧ Forall (λ l, ¬ theme_header_line l) (new_lines (removal_pass lines)).
Proof.
  rewrite removal_pass_is_frame.
  pose proof (frame_no_header [] lines) as Hh. split.
  - unfold removal_pass. by rewrite foldl_removal_clean.
  - eapply Forall_impl; [exact Hh|]. intros l Hl.
    unfold theme_header_line. congruence.
Qed.

Lemma readlines_nil t : PyStr.readlines t = [] → t = EmptyString.
Proof.
  destruct t as [|c t]; [done|]. simpl.
  destruct (Ascii.eqb c Chr.nl); [done|].
  by destruct (PyStr.readlines t).
Qed.

Lemma writelines_readlines t : PyStr.writelines (PyStr.readlines t) = t.
Proof.
  induction t as [|c t IH]; [done|]. simpl.
  destruct (Ascii.eqb c Chr.nl) eqn:E.
  - simpl. by rewrite IH.
  - destruct (PyStr.readlines t) as [|h tl] eqn:R.
    + apply readlines_nil in R as ->. done.
    + simpl in *. by rewrite IH.
Qed.

Lemma readlines_nonempty t : Forall (λ l, l ≠ EmptyString) (PyStr.readlines t).
Proof.
  induction t as [|c t IH]; simpl; [constructor|].
  destruct (Ascii.eqb c Chr.nl); [by constructor|].
  destruct (PyStr.readlines t) as [|h tl]; [by repeat constructor|].
  apply Forall_cons in IH as [_ ?]. by constructor.
Qed.

Lemma ends_with_cons c s ch :
  s ≠ EmptyString →
  PyStr.ends_with_char (String c s) ch = PyStr.ends_with_char s ch.
Proof. by destruct s. Qed.

Lemma last_readlines t :
  match last (PyStr.readlines t) with
  | Some l => PyStr.ends_with_char l Chr.nl = PyStr.ends_with_char t Chr.nl
  | None => t = EmptyString
  end.
Proof.
  induction t as [|c t IH]; [done|].
  pose proof (readlines_nonempty t) as Hne.
  cbn [PyStr.readlines].
  destruct (PyStr.readlines t) as [|h tl] eqn:R.
  - apply readlines_nil in R as ->.
    destruct (Ascii.eqb c Chr.nl) eqn:E; simpl; by rewrite ?E.
  - assert (t ≠ EmptyString) as Ht by (by intros ->).
    apply Forall_cons in Hne as [Hh _].
    rewrite (ends_with_cons c t) by done.
    destruct (Ascii.eqb c Chr.nl).
    + rewrite last_cons.
      destruct (last (h :: tl)) eqn:E; [done|by apply last_None in E].
    + destruct tl as [|h' tl].
      * simpl in *. by destruct h.
      * rewrite last_cons. rewrite last_cons in IH.
        destruct (last (h' :: tl)) eqn:E; [done|by apply last_None in E].
Qed.

Lemma frame_without_header before lines :
  section_open (rev before) = false →
  Forall (λ l, is_theme_header (PyStr.strip l) = false) lines →
  frame before lines = lines.
Proof.
  intros Hb H. revert before Hb.
  induction H as [|l lines Hl _ IH]; intros before Hb; [done|].
  simpl. unfold is_theme_line. rewrite Hl, Hb, andb_false_r. simpl.
  f_equal. apply IH. rewrite rev_app_distr. simpl. rewrite Hl.
  by destruct (leaves_theme _).
Qed.

(** X8.  A destination that holds no [[theme]] or [[theme.*]] header line
    is kept whole: the merged text is the destination text, given a final
    newline when it is not empty and lacks one, followed by the theme
    block. *)
Theorem destination_without_theme_kept theme text :
  Forall (λ l, ¬ theme_header_line l) (PyStr.readlines text) →
  merge_text theme text
  = (if String.eqb text EmptyString || PyStr.ends_with_char text Chr.nl
     then text else text +:+ NL)
    +:+ PyStr.writelines (theme_block theme).
Proof.
  intros H. rewrite merge_text_once. f_equal.
  unfold kept_text. rewrite removal_pass_is_frame, frame_without_header; [|done|].
  - destruct text as [|c t]; [done|].
    unfold terminate_last. pose proof (last_readlines (String c t)) as Hl.
    destruct (last (PyStr.readlines (String c t))) as [l|]; [|done].
    rewrite Hl. simpl String.eqb. rewrite orb_false_l.
    destruct (PyStr.ends_with_char (String c t) Chr.nl).
    + apply writelines_readlines.
    + rewrite writelines_app, writelines_readlines. done.
  - eapply Forall_impl; [exact H|]. intros l Hl. unfold theme_header_line in Hl.
    by destruct (is_theme_header _).
Qed.

Lemma destination_without_theme_kept_witness :
  Forall (λ l, ¬ theme_header_line l) (PyStr.readlines ("[ui]" +:+ NL +:+ "x = 1"))
  ∧ merge_text (generate_navitone_config demo_palette) ("[ui]" +:+ NL +:+ "x = 1")
    = ("[ui]" +:+ NL +:+ "x = 1" +:+ NL)
      +:+ PyStr.writelines (theme_block (generate_navitone_config demo_palette)).
Proof.
  assert (Forall (λ l, ¬ theme_header_line l)
            (PyStr.readlines ("[ui]" +:+ NL +:+ "x = 1"))) as H.
  { repeat constructor; unfold theme_header_line; vm_compute; discriminate. }
  split; [exact H|].
  apply (destination_without_theme_kept
           (generate_navitone_config demo_palette) ("[ui]" +:+ NL +:+ "x = 1") H).
Defined.

(** ** Sources of the structured path *)

(** X9.  In the structured path [colors.terminal] takes precedence: when
    it is a mapping, the 6 roles are read from it alone (accent from
    blue, primary from cyan, secondary from magenta, success from green,
    warning from yellow, error from red), each missing key giving its
    own constant, whatever [apps.alacritty] holds.  The mapping
    [apps.alacritty.colors.normal] is read, in the same way, only when
    [colors.terminal] is not there. *)
Theorem terminal_colors_take_precedence td :
  (∀ fields,
     submapping td "colors" "terminal" = Some (JObj fields) →
     structured_colors td = Return (roles_from fields))
  ∧ (∀ al fields,
       lacks_submapping td "colors" "terminal" = true →
       submapping td "apps" "alacritty" = Some al →
       submapping al "colors" "normal" = Some (JObj fields) →
       structured_colors td = Return (roles_from fields)).
Proof.
  split.
  - intros fields Hs.
    destruct (has_path_submapping _ _ _ _ Hs) as [Hp Hg].
    unfold structured_colors. rewrite Hp. simpl.
    destruct (Json.getitem td "colors") as [c|]; simpl in *; [|done].
    by rewrite Hg.
  - intros al fields Hl Ha Hn.
    destruct (has_path_submapping _ _ _ _ Ha) as [Hp Hg].
    destruct (has_path_submapping _ _ _ _ Hn) as [_ Hg'].
    unfold structured_colors. rewrite (has_path_lacks _ _ _ Hl). simpl.
    rewrite Hp. simpl.
    destruct (Json.getitem td "apps") as [x|]; simpl in *; [|done].
    rewrite Hg. simpl.
    destruct (Json.getitem al "colors") as [z|]; simpl in *; [|done].
    by rewrite Hg'.
Qed.

Example terminal_precedence_demo :
  extract_theme_colors "t"
    (JsonParsed (JObj
       [("apps", JObj [("alacritty", JObj [("colors", JObj
           [("normal", JObj [("blue", JStr "#000001")]);
            ("primary", JObj [("background", JStr "#000002")])])])]);
        ("colors", JObj [("terminal", JObj [("blue", JStr "#0000ff")])])]))
    Missing
  = Return (Some (ThemeData "t"
      [("accent", JStr "#0000ff"); ("primary", JStr "#048ba8");
       ("secondary", JStr "#d35f5f"); ("success", JStr "#a9fbd7");
       ("warning", JStr "#9f87af"); ("error", JStr "#9c528b")]
      (JStr "#000002") (JStr "#ffffff"))).
Proof. reflexivity. Qed.

(** ** [simple_toml_load] never raises *)

Lemma dict_get_set_eq {V} k (v : V) d : Dict.get k (Dict.set k v d) = Some v.
Proof.
  induction d as [|[k' v'] d IH]; simpl.
  - by rewrite String.eqb_refl.
  - destruct (String.eqb k k') eqn:E; simpl; rewrite E; [done|exact IH].
Qed.

Lemma dict_get_set_ne {V} k k' (v : V) d :
  k ≠ k' → Dict.get k (Dict.set k' v d) = Dict.get k d.
Proof.
  intros Hne. pose proof Hne as Hb. apply String.eqb_neq in Hb.
  induction d as [|[k2 v2] d IH]; simpl.
  - by rewrite Hb.
  - destruct (String.eqb k' k2) eqn:E; simpl.
    + apply String.eqb_eq in E as <-. by rewrite Hb.
    + destruct (String.eqb k k2); [done|exact IH].
Qed.

Lemma open_section_consistent st section_name :
  loader_consistent st →
  ∃ st', Loader.open_section st section_name = Return st'
         ∧ loader_consistent st'.
Proof.
  intros Hst. unfold Loader.open_section.
  destruct (PyStr.contains "." section_name).
  - destruct (PyStr.split1 Chr.dot section_name) as [[cs cn]|].
    + assert (∃ sec, Dict.get cs
                (if Dict.mem cs (Loader.data st) then Loader.data st
                 else Dict.set cs [] (Loader.data st)) = Some sec) as [sec Hsec].
      { unfold Dict.mem. destruct (Dict.get cs (Loader.data st)) eqn:E; [eauto|].
        rewrite dict_get_set_eq. eauto. }
      rewrite Hsec. eexists. split; [done|].
      intros _. simpl. rewrite dict_get_set_eq. eexists. split; [done|].
      intros _. rewrite dict_get_set_eq. eauto.
    + by exists st.
  - eexists. split; [done|]. intros _. simpl. rewrite dict_get_set_eq.
    eexists. split; [done|]. done.
Qed.

Lemma store_consistent st key value :
  loader_consistent st →
  Loader.truthy (Loader.current_section st) = true →
  ∃ st', Loader.store st (default EmptyString (Loader.current_section st))
           key value = Return st'
         ∧ loader_consistent st'.
Proof.
  intros Hst Hcs. destruct (Hst Hcs) as (sec & Hsec & Hn).
  unfold Loader.store. rewrite Hsec.
  destruct (Loader.truthy (Loader.current_nested st)) eqn:Hcn.
  - destruct (Hn eq_refl) as [items Hitems]. rewrite Hitems.
    eexists. split; [done|]. intros _. simpl. rewrite dict_get_set_eq.
    eexists. split; [done|]. intros _. rewrite dict_get_set_eq. eauto.
  - eexists. split; [done|]. intros _. simpl. rewrite dict_get_set_eq.
    eexists. split; [done|]. intros Hc. congruence.
Qed.

Lemma load_line_consistent st raw :
  loader_consistent st →
  ∃ st', Loader.load_line st raw = Return st' ∧ loader_consistent st'.
Proof.
  intros Hst. unfold Loader.load_line.
  destruct (_ || _); [by exists st|].
  destruct (_ && _); [by apply open_section_consistent|].
  destruct (PyStr.contains "=" _); simpl; [|by exists st].
  destruct (Loader.truthy (Loader.current_section st)) eqn:Hcs; [|by exists st].
  destruct (PyStr.split1 _ _) as [[key value]|]; [|by exists st].
  by apply store_consistent.
Qed.

Lemma load_lines_consistent lines st :
  loader_consistent st →
  ∃ st', Loader.load_lines st lines = Return st' ∧ loader_consistent st'.
Proof.
  revert st. induction lines as [|l lines IH]; intros st Hst; simpl.
  - by exists st.
  - destruct (load_line_consistent st l Hst) as (st1 & -> & H1). simpl.
    by apply IH.
Qed.

(** X10.  [simple_toml_load] returns a dictionary for every text: none of
    its unchecked lookups [data[current_section]] and
    [data[current_section][current_nested]] can raise, because the
    section and the table being filled always exist. *)
Theorem simple_toml_load_never_raises content :
  ∃ data, simple_toml_load content = Return data.
Proof.
  unfold simple_toml_load.
  destruct (load_lines_consistent (PyStr.split Chr.nl content) Loader.init)
    as (st & -> & _); [|by eexists].
  intros Hc. discriminate.
Qed.

(** ** Assignments outside a section *)

Lemma load_line_no_section st raw :
  Loader.truthy (Loader.current_section st) = false →
  (PyStr.startswith (PyStr.strip raw) "["
   && PyStr.ends_with_char (PyStr.strip raw) "]") = false →
  Loader.load_line st raw = Return st.
Proof.
  intros Hcs Hh. unfold Loader.load_line. rewrite Hh, Hcs.
  destruct (_ || _); [done|]. by rewrite andb_false_r.
Qed.

(** X11.  Assignments that no section header precedes are dropped: before
    the first line of the form [[...]] the loader stores nothing, so a
    text without any such line loads as the empty dictionary, and lines
    put in front of a text change nothing when they hold no header. *)
Theorem assignments_before_header_dropped pre content :
  Forall (λ l, (PyStr.startswith (PyStr.strip l) "["
                && PyStr.ends_with_char (PyStr.strip l) "]") = false) pre →
  Loader.load_lines Loader.init (pre ++ PyStr.split Chr.nl content)
  = Loader.load_lines Loader.init (PyStr.split Chr.nl content)
  ∧ Loader.load_lines Loader.init pre = Return Loader.init.
Proof.
  intros H. induction H as [|l pre Hl _ [IH1 IH2]]; [done|].
  simpl. rewrite (load_line_no_section Loader.init l) by done. done.
Qed.

Lemma assignments_before_header_dropped_witness :
  Forall (λ l, (PyStr.startswith (PyStr.strip l) "["
                && PyStr.ends_with_char (PyStr.strip l) "]") = false)
         ["x = 1"; "# note"; "[broken"]
  ∧ Loader.load_lines Loader.init
      (["x = 1"; "# note"; "[broken"] ++ PyStr.split Chr.nl ("[a]" +:+ NL +:+ "k = v"))
    = Return (Loader.State [("a", [("k", Loader.Text "v")])] (Some "a") None).
Proof.
  assert (Forall (λ l, (PyStr.startswith (PyStr.strip l) "["
                && PyStr.ends_with_char (PyStr.strip l) "]") = false)
         ["x = 1"; "# note"; "[broken"]) as H by (repeat constructor).
  split; [exact H|].
  rewrite (proj1 (assignments_before_header_dropped _ ("[a]" +:+ NL +:+ "k = v") H)).
  reflexivity.
Defined.

(** ** Lines of a dump, read by the loader *)

Lemma rtrim_keep f s c :
  f c = false →
  PyStr.rtrim f (s +:+ String c "") = s +:+ String c "".
Proof.
  intros Hc. induction s as [|a s IH]; simpl.
  - by rewrite Hc.
  - rewrite IH. by destruct s.
Qed.

Lemma ends_with_snoc s c ch :
  PyStr.ends_with_char (s +:+ String c "") ch = Ascii.eqb c ch.
Proof.
  induction s as [|a s IH]; [done|].
  simpl. rewrite <- IH. by destruct s.
Qed.

Lemma startswith_nil s : PyStr.startswith s "" = true.
Proof. by destruct s. Qed.

Lemma contains_mid c a b :
  PyStr.contains (String c "") (a +:+ String c b) = true.
Proof.
  induction a as [|x a IH]; cbn [String.append PyStr.contains].
  - by rewrite startswith_cons, Ascii.eqb_refl, startswith_nil.
  - rewrite IH. apply orb_true_r.
Qed.

Lemma lacks_not_contains c s :
  lacks_char c s = true → PyStr.contains (String c "") s = false.
Proof.
  induction s as [|a s IH]; [done|].
  cbn [lacks_char PyStr.contains]. intros [Ha Hs]%andb_true_iff.
  apply negb_true_iff in Ha. rewrite (IH Hs), orb_false_r.
  by rewrite startswith_cons, Ascii.eqb_sym, Ha.
Qed.

Lemma split1_app sep a b :
  lacks_char sep a = true →
  PyStr.split1 sep (a +:+ String sep b) = Some (a, b).
Proof.
  induction a as [|x a IH]; cbn [String.append PyStr.split1 lacks_char].
  - intros _. by rewrite Ascii.eqb_refl.
  - intros [Hx Ha]%andb_true_iff. apply negb_true_iff in Hx.
    by rewrite Hx, (IH Ha).
Qed.

Lemma strip_snoc s c :
  PyStr.is_space c = true → PyStr.strip (s +:+ String c "") = PyStr.strip s.
Proof.
  intros Hc. unfold PyStr.strip. rewrite ltrim_app.
  destruct (PyStr.ltrim PyStr.is_space s) as [|a r].
  - simpl. by rewrite Hc.
  - by apply rtrim_snoc.
Qed.

Lemma drop_last_snoc s c : Loader.drop_last (s +:+ String c "") = s.
Proof.
  induction s as [|a s IH]; [done|].
  simpl. rewrite IH. by destruct s.
Qed.

Lemma loadable_key_shape k :
  loadable_key k = true →
  ∃ c r, k = String c r ∧ PyStr.is_space c = false
         ∧ Ascii.eqb Chr.hash c = false
         ∧ PyStr.rtrim PyStr.is_space k = k
         ∧ lacks_char Chr.eq_sign k = true ∧ no_newline k = true.
Proof.
  unfold loadable_key. intros H.
  repeat (apply andb_true_iff in H as [H ?]).
  destruct k as [|c r]; [done|].
  apply andb_true_iff in H as [Hs Hh].
  apply negb_true_iff in Hs. apply negb_true_iff in Hh.
  exists c, r.
  split_and!;
    [done | done | by rewrite Ascii.eqb_sym | by apply String.eqb_eq
    | done | done].
Qed.

Lemma loadable_value_shape v :
  loadable_value v = true →
  no_newline v = true
  ∧ PyStr.ltrim PyStr.is_quote v = v ∧ PyStr.rtrim PyStr.is_quote v = v.
Proof.
  unfold loadable_value. intros H.
  repeat (apply andb_true_iff in H as [H ?]).
  split_and!; [done| |]; by apply String.eqb_eq.
Qed.

Lemma strip_key k :
  loadable_key k = true → PyStr.strip (k +:+ " ") = k.
Proof.
  intros (c & r & -> & Hs & _ & Hr & _)%loadable_key_shape.
  rewrite strip_snoc by done. unfold PyStr.strip.
  cbn [PyStr.ltrim]. by rewrite Hs.
Qed.

Lemma strip_quoted v :
  loadable_value v = true →
  PyStr.strip_quotes (PyStr.strip (" " +:+ DQ +:+ v +:+ DQ)) = v.
Proof.
  intros (_ & Hl & Hr)%loadable_value_shape.
  assert (PyStr.strip (" " +:+ DQ +:+ v +:+ DQ) = DQ +:+ v +:+ DQ) as ->.
  { unfold PyStr.strip. cbn [String.append PyStr.ltrim DQ].
    change (PyStr.is_space " ") with true. cbv iota.
    change (PyStr.is_space Chr.dquote) with false. cbv iota.
    exact (rtrim_keep PyStr.is_space (String Chr.dquote v) Chr.dquote eq_refl). }
  unfold PyStr.strip_quotes. cbn [String.append PyStr.ltrim DQ].
  change (PyStr.is_quote Chr.dquote) with true. cbv iota.
  rewrite ltrim_app, Hl. destruct v as [|c v'].
  - reflexivity.
  - unfold DQ. by rewrite rtrim_snoc.
Qed.

Lemma item_line_snoc k v :
  item_line (k, v) = (k +:+ " = " +:+ DQ +:+ v) +:+ String Chr.dquote "".
Proof. unfold item_line, DQ. simpl. by rewrite !str_app_assoc. Qed.

Lemma item_line_split k v :
  item_line (k, v)
  = (k +:+ " ") +:+ String Chr.eq_sign (" " +:+ DQ +:+ v +:+ DQ).
Proof. unfold item_line. simpl. by rewrite !str_app_assoc. Qed.

(** An assignment line of the dump stores its key and its value. *)
Lemma load_item_line st k v :
  loadable_key k = true → loadable_value v = true →
  Loader.truthy (Loader.current_section st) = true →
  Loader.load_line st (item_line (k, v))
  = Loader.store st (default EmptyString (Loader.current_section st)) k v.
Proof.
  intros Hk Hv Hcs.
  destruct (loadable_key_shape k Hk) as (c & r & -> & Hs & Hh & Hr & He & Hn).
  unfold Chr.hash in Hh.
  set (k := String c r) in *.
  assert (PyStr.strip (item_line (k, v)) = item_line (k, v)) as Hstrip.
  { unfold PyStr.strip.
    assert (PyStr.ltrim PyStr.is_space (item_line (k, v)) = item_line (k, v))
      as ->.
    { subst k. unfold item_line. cbn [fst String.append PyStr.ltrim].
      by rewrite Hs. }
    rewrite item_line_snoc. by apply rtrim_keep. }
  unfold Loader.load_line. rewrite Hstrip, Hcs.
  assert (String.eqb (item_line (k, v)) "" = false) as ->.
  { apply String.eqb_neq. by subst k. }
  assert (PyStr.startswith (item_line (k, v)) "#" = false) as ->.
  { subst k. unfold item_line. cbn [fst String.append].
    by rewrite startswith_cons, Hh. }
  assert (PyStr.ends_with_char (item_line (k, v)) "]" = false) as ->.
  { by rewrite item_line_snoc, ends_with_snoc. }
  rewrite andb_false_r. cbn [orb].
  rewrite item_line_split, contains_mid. cbn [andb].
  rewrite split1_app.
  - by rewrite strip_key, strip_quoted.
  - rewrite lacks_char_app, He. done.
Qed.

(** A header line opens the section it names. *)
Lemma load_header_line st s :
  Loader.load_line st ("[" +:+ s +:+ "]") = Loader.open_section st s.
Proof.
  assert ("[" +:+ s +:+ "]" = String "[" s +:+ String "]" "") as Hsnoc by done.
  assert (PyStr.strip ("[" +:+ s +:+ "]") = "[" +:+ s +:+ "]") as Hstrip.
  { unfold PyStr.strip. cbn [String.append PyStr.ltrim].
    change (PyStr.is_space "[") with false. cbv iota.
    exact (rtrim_keep PyStr.is_space (String "[" s) "]" eq_refl). }
  unfold Loader.load_line. rewrite Hstrip.
  assert (PyStr.ends_with_char ("[" +:+ s +:+ "]") "]" = true) as ->.
  { rewrite Hsnoc. by rewrite ends_with_snoc. }
  cbn [String.append]. rewrite !startswith_cons, startswith_nil.
  cbn [String.eqb]. simpl orb. simpl andb.
  unfold Loader.inner. by rewrite drop_last_snoc.
Qed.

Lemma open_plain_section st n :
  loadable_section n = true →
  Loader.open_section st n
  = Return (Loader.State (Dict.set n [] (Loader.data st)) (Some n) None).
Proof.
  unfold loadable_section. intros H.
  repeat (apply andb_true_iff in H as [H ?]).
  unfold Loader.open_section, Chr.dot in *.
  by rewrite (lacks_not_contains "." n).
Qed.

Lemma open_table st n k sec :
  loadable_section n = true →
  Dict.get n (Loader.data st) = Some sec →
  Loader.open_section st (n +:+ "." +:+ k)
  = Return (Loader.State
              (Dict.set n (Dict.set k (Loader.Table []) sec) (Loader.data st))
              (Some n) (Some k)).
Proof.
  unfold loadable_section. intros H Hsec.
  repeat (apply andb_true_iff in H as [H ?]).
  unfold Loader.open_section, Chr.dot in *.
  change (n +:+ "." +:+ k) with (n +:+ String "." k).
  rewrite contains_mid, split1_app by done.
  unfold Dict.mem. by rewrite Hsec, Hsec.
Qed.

Lemma load_empty_line st : Loader.load_line st "" = Return st.
Proof. reflexivity. Qed.

(** ** The dictionary the loader builds from the lines of a dump *)

Lemma dict_set_set {V} k (v1 v2 : V) d :
  Dict.set k v2 (Dict.set k v1 d) = Dict.set k v2 d.
Proof.
  induction d as [|[k' v'] d IH]; simpl.
  - by rewrite String.eqb_refl.
  - destruct (String.eqb k k') eqn:E; simpl; rewrite E; [done|].
    by rewrite IH.
Qed.

Lemma dict_set_fresh {V} k (v : V) d :
  k ∉ map fst d → Dict.set k v d = d ++ [(k, v)].
Proof.
  induction d as [|[k' v'] d IH]; simpl; [done|].
  intros Hk. apply not_elem_of_cons in Hk as [Hne Hk].
  apply String.eqb_neq in Hne. rewrite Hne. by rewrite IH.
Qed.

Lemma dict_update_fresh {V} (d items : list (string * V)) :
  NoDup (map fst (d ++ items)) → dict_update d items = d ++ items.
Proof.
  unfold dict_update. revert d.
  induction items as [|[k v] items IH]; intros d Hnd; simpl.
  - by rewrite app_nil_r.
  - rewrite (cons_middle (k, v) d items), app_assoc in Hnd |- *.
    rewrite dict_set_fresh.
    + by apply IH.
    + rewrite !map_app in Hnd. apply NoDup_app in Hnd as [Hnd _].
      apply NoDup_app in Hnd as (_ & Hd & _). simpl in Hd.
      intros Hin. apply (Hd k Hin). by left.
Qed.

Lemma truthy_some c r : Loader.truthy (Some (String c r)) = true.
Proof. reflexivity. Qed.

(** Assignment lines read while a table is open fill that table. *)
Lemma load_items items D n k sec acc :
  forallb (λ kv, loadable_key (fst kv) && loadable_value (snd kv)) items = true →
  Loader.truthy (Some n) = true → Loader.truthy (Some k) = true →
  Loader.load_lines
    (Loader.State (Dict.set n (Dict.set k (Loader.Table acc) sec) D)
                  (Some n) (Some k))
    (map item_line items)
  = Return (Loader.State
              (Dict.set n (Dict.set k (Loader.Table (dict_update acc items)) sec) D)
              (Some n) (Some k)).
Proof.
  intros Hitems Hn Hk. revert acc.
  induction items as [|[ik iv] items IH]; intros acc; [done|].
  simpl in Hitems. apply andb_true_iff in Hitems as [Hi Hitems].
  apply andb_true_iff in Hi as [Hik Hiv].
  cbn [map Loader.load_lines].
  rewrite load_item_line by done.
  unfold Loader.store. cbn [Loader.data Loader.current_section
    Loader.current_nested default].
  rewrite dict_get_set_eq, Hk, dict_get_set_eq, !dict_set_set.
  cbn [bind]. by rewrite IH.
Qed.

(** Assignment lines read while no table is open fill the section. *)
Lemma load_strings items D n sec :
  forallb (λ kv, loadable_key (fst kv) && loadable_value (snd kv)) items = true →
  Loader.truthy (Some n) = true →
  Loader.load_lines
    (Loader.State (Dict.set n sec D) (Some n) None)
    (map item_line items)
  = Return (Loader.State
              (Dict.set n
                 (dict_update sec
                    (map (λ kv, (fst kv, Loader.Text (snd kv))) items)) D)
              (Some n) None).
Proof.
  intros Hitems Hn. revert sec.
  induction items as [|[ik iv] items IH]; intros sec; [done|].
  simpl in Hitems. apply andb_true_iff in Hitems as [Hi Hitems].
  apply andb_true_iff in Hi as [Hik Hiv].
  cbn [map Loader.load_lines].
  rewrite load_item_line by done.
  unfold Loader.store. cbn [Loader.data Loader.current_section
    Loader.current_nested default Loader.truthy].
  rewrite dict_get_set_eq, !dict_set_set.
  cbn [bind]. by rewrite IH.
Qed.

Lemma load_lines_app st l1 l2 :
  Loader.load_lines st (l1 ++ l2)
  = (let! st' := Loader.load_lines st l1 in Loader.load_lines st' l2).
Proof.
  revert st. induction l1 as [|l l1 IH]; intros st; [done|].
  simpl. destruct (Loader.load_line st l) as [st'|e]; simpl; [apply IH|done].
Qed.

Lemma loadable_section_truthy n :
  loadable_section n = true → Loader.truthy (Some n) = true.
Proof. unfold loadable_section. by destruct n. Qed.

Lemma loadable_table_truthy k :
  loadable_table k = true → Loader.truthy (Some k) = true.
Proof. unfold loadable_table. by destruct k. Qed.

(** The lines of the tables of a section: each table is opened empty
    and filled. *)
Lemma load_tables entries D n sec cn :
  loadable_section n = true →
  forallb is_table entries = true →
  forallb loadable_entry entries = true →
  ∃ cn',
    Loader.load_lines (Loader.State (Dict.set n sec D) (Some n) cn)
      (concat (map (entry_lines n) entries))
    = Return (Loader.State
                (Dict.set n (dict_update sec (map rebuilt_entry entries)) D)
                (Some n) cn').
Proof.
  intros Hn. revert sec cn.
  induction entries as [|[k v] entries IH]; intros sec cn Ht Hl.
  - by exists cn.
  - simpl in Ht, Hl. apply andb_true_iff in Ht as [Hv Ht].
    apply andb_true_iff in Hl as [Hk Hl].
    destruct v as [s|items]; [done|].
    unfold loadable_entry in Hk. simpl in Hk.
    apply andb_true_iff in Hk as [Hk Hitems].
    unfold loadable_items in Hitems.
    apply andb_true_iff in Hitems as [_ Hitems].
    cbn [map concat entry_lines snd fst].
    rewrite <- app_comm_cons. cbn [Loader.load_lines].
    rewrite load_empty_line. cbn [bind].
    rewrite <- app_comm_cons. cbn [Loader.load_lines].
    replace ("[" +:+ n +:+ "." +:+ k +:+ "]")
      with ("[" +:+ (n +:+ "." +:+ k) +:+ "]")
      by (by rewrite !str_app_assoc).
    rewrite load_header_line.
    rewrite (open_table _ n k sec) by (done || apply dict_get_set_eq).
    cbn [bind Loader.data]. rewrite dict_set_set.
    rewrite load_lines_app, load_items;
      [|done|by apply loadable_section_truthy|by apply loadable_table_truthy].
    cbn [bind].
    destruct (IH (Dict.set k (Loader.Table (dict_update [] items)) sec)
                 (Some k) Ht Hl) as [cn' ->].
    by exists cn'.
Qed.

(** The lines of the entries of a section, strings first. *)
Lemma load_entries entries D n sec :
  loadable_section n = true →
  strings_first entries = true →
  forallb loadable_entry entries = true →
  ∃ cn',
    Loader.load_lines (Loader.State (Dict.set n sec D) (Some n) None)
      (concat (map (entry_lines n) entries))
    = Return (Loader.State
                (Dict.set n (dict_update sec (map rebuilt_entry entries)) D)
                (Some n) cn').
Proof.
  intros Hn. revert sec.
  induction entries as [|[k v] entries IH]; intros sec Hs Hl.
  - by exists None.
  - destruct v as [s|items].
    + simpl in Hs, Hl. apply andb_true_iff in Hl as [Hk Hl].
      unfold loadable_entry in Hk. simpl in Hk.
      cbn [map concat entry_lines snd fst app Loader.load_lines].
      apply andb_true_iff in Hk as [Hk Hv].
      rewrite load_item_line by (done || by apply loadable_section_truthy).
      unfold Loader.store. cbn [Loader.data Loader.current_section
        Loader.current_nested default Loader.truthy].
      rewrite dict_get_set_eq, dict_set_set. cbn [bind].
      destruct (IH (Dict.set k (Loader.Text s) sec) Hs Hl) as [cn' ->].
      by exists cn'.
    + apply load_tables; [done| |done].
      simpl in Hs. simpl. exact Hs.
Qed.

(** The lines of a section: the header opens it empty, the entries
    fill it, the closing empty line changes nothing. *)
Lemma load_section sv D cs cn :
  loadable_section (fst sv) = true →
  loadable_entries (snd sv) = true →
  ∃ cn',
    Loader.load_lines (Loader.State D cs cn) (section_lines sv)
    = Return (Loader.State
                (Dict.set (fst sv) (dict_update [] (map rebuilt_entry (snd sv))) D)
                (Some (fst sv)) cn').
Proof.
  destruct sv as [n entries]. cbn [fst snd]. intros Hn He.
  unfold loadable_entries in He.
  apply andb_true_iff in He as [He Hl].
  apply andb_true_iff in He as [_ Hs].
  unfold section_lines. cbn [fst snd Loader.load_lines].
  rewrite load_header_line, open_plain_section by done.
  cbn [bind Loader.data]. rewrite load_lines_app.
  destruct (load_entries entries D n [] Hn Hs Hl) as [cn' ->].
  cbn [bind Loader.load_lines]. rewrite load_empty_line.
  by exists cn'.
Qed.

(** The lines of a dump: each section is stored under its name. *)
Lemma load_data data D cs cn :
  forallb (λ sv, loadable_section (fst sv) && loadable_entries (snd sv)) data
  = true →
  ∃ cs' cn',
    Loader.load_lines (Loader.State D cs cn) (data_lines data)
    = Return (Loader.State (dict_update D (map rebuilt_section data)) cs' cn').
Proof.
  revert D cs cn.
  induction data as [|sv data IH]; intros D cs cn Hd.
  - by exists cs, cn.
  - simpl in Hd. apply andb_true_iff in Hd as [Hsv Hd].
    apply andb_true_iff in Hsv as [Hn He].
    unfold data_lines. cbn [map concat]. rewrite load_lines_app.
    destruct (load_section sv D cs cn Hn He) as [cn1 ->]. cbn [bind].
    destruct (IH (Dict.set (fst sv)
                    (dict_update [] (map rebuilt_entry (snd sv))) D)
                 (Some (fst sv)) cn1 Hd) as (cs' & cn' & IH').
    exists cs', cn'. exact IH'.
Qed.

(** With distinct keys, filling a dictionary key by key gives the
    dictionary itself. *)
Lemma rebuilt_entry_id kv :
  loadable_entry kv = true → rebuilt_entry kv = kv.
Proof.
  destruct kv as [k [s|items]]; [done|].
  unfold loadable_entry, rebuilt_entry, loadable_items. cbn [fst snd].
  intros H. apply andb_true_iff in H as [_ H].
  apply andb_true_iff in H as [Hnd _]. apply bool_decide_eq_true in Hnd.
  by rewrite (dict_update_fresh [] items Hnd).
Qed.

Lemma rebuilt_section_id sv :
  loadable_entries (snd sv) = true → rebuilt_section sv = sv.
Proof.
  destruct sv as [n entries]. unfold loadable_entries, rebuilt_section.
  cbn [fst snd]. intros H.
  apply andb_true_iff in H as [H Hl].
  apply andb_true_iff in H as [Hnd _]. apply bool_decide_eq_true in Hnd.
  assert (map rebuilt_entry entries = entries) as ->.
  { clear Hnd. induction entries as [|kv entries IH]; [done|].
    simpl in Hl. apply andb_true_iff in Hl as [Hkv Hl].
    simpl. by rewrite rebuilt_entry_id, IH. }
  by rewrite (dict_update_fresh [] entries Hnd).
Qed.

Lemma rebuilt_data_id data :
  loadable data = true → dict_update [] (map rebuilt_section data) = data.
Proof.
  unfold loadable. intros H.
  apply andb_true_iff in H as [Hnd Hl]. apply bool_decide_eq_true in Hnd.
  assert (map rebuilt_section data = data) as ->.
  { clear Hnd. induction data as [|sv data IH]; [done|].
    simpl in Hl. apply andb_true_iff in Hl as [Hsv Hl].
    apply andb_true_iff in Hsv as [_ Hsv].
    simpl. by rewrite rebuilt_section_id, IH. }
  by rewrite (dict_update_fresh [] data Hnd).
Qed.

(** ** The text of a dump, line by line *)

Lemma split_bodies bodies :
  Forall (λ b, no_newline b = true) bodies →
  PyStr.split Chr.nl (PyStr.writelines (map (λ b, b +:+ NL) bodies))
  = bodies ++ [EmptyString].
Proof.
  induction 1 as [|b bodies Hb _ IH]; [done|].
  cbn [map PyStr.writelines app]. by rewrite split_line, IH.
Qed.

Lemma writelines_concat (ls : list (list string)) :
  PyStr.writelines (concat ls) = PyStr.writelines (map PyStr.writelines ls).
Proof.
  induction ls as [|l ls IH]; [done|].
  cbn [concat map PyStr.writelines]. by rewrite writelines_app, IH.
Qed.

Lemma item_text kv :
  item_line kv +:+ NL = Dump.scalar_line (fst kv) (Dump.Str (snd kv)).
Proof.
  unfold item_line, Dump.scalar_line. by rewrite !str_app_assoc.
Qed.

Lemma entry_text_lines n kv :
  PyStr.writelines (map (λ b, b +:+ NL) (entry_lines n kv))
  = Dump.entry_text n (fst kv, dump_value (snd kv)).
Proof.
  destruct kv as [k [s|items]];
    unfold entry_lines, Dump.entry_text, dump_value; cbn [fst snd].
  - cbn [map PyStr.writelines]. by rewrite str_app_nil_r, (item_text (k, s)).
  - cbn [map PyStr.writelines]. rewrite !str_app_assoc, !map_map.
    by rewrite (map_ext (λ x, item_line x +:+ NL)
                  (λ x, Dump.scalar_line (fst x) (Dump.Str (snd x))))
      by apply item_text.
Qed.

Lemma section_text_lines sv :
  PyStr.writelines (map (λ b, b +:+ NL) (section_lines sv))
  = Dump.section_text
      (fst sv,
       Dump.Mapping (map (λ kv, (fst kv, dump_value (snd kv))) (snd sv))).
Proof.
  destruct sv as [n entries].
  unfold section_lines, Dump.section_text. cbn [fst snd].
  cbn [map PyStr.writelines]. rewrite map_app, writelines_app.
  cbn [map PyStr.writelines]. rewrite !str_app_assoc, str_app_nil_r.
  rewrite concat_map, writelines_concat, !map_map.
  by rewrite (map_ext _ _ (entry_text_lines n)).
Qed.

Lemma dump_lines data :
  simple_toml_dump (dump_view data)
  = PyStr.writelines (map (λ b, b +:+ NL) (data_lines data)).
Proof.
  unfold simple_toml_dump, dump_view, data_lines.
  rewrite concat_map, writelines_concat, !map_map. f_equal.
  apply map_ext. intros sv. by rewrite section_text_lines.
Qed.

Lemma item_line_no_newline kv :
  loadable_key (fst kv) && loadable_value (snd kv) = true →
  no_newline (item_line kv) = true.
Proof.
  intros [Hk Hv]%andb_true_iff.
  apply loadable_key_shape in Hk as (_ & _ & _ & _ & _ & _ & _ & Hk).
  apply loadable_value_shape in Hv as (Hv & _).
  unfold item_line. by rewrite !no_newline_app, Hk, Hv.
Qed.

Lemma entry_lines_no_newline n kv :
  no_newline n = true → loadable_entry kv = true →
  Forall (λ b, no_newline b = true) (entry_lines n kv).
Proof.
  intros Hn. destruct kv as [k [s|items]];
    unfold loadable_entry, entry_lines; cbn [fst snd]; intros H.
  - apply Forall_singleton. by apply (item_line_no_newline (k, s)).
  - apply andb_true_iff in H as [Hk Hitems].
    unfold loadable_table in Hk. apply andb_true_iff in Hk as [_ Hk].
    unfold loadable_items in Hitems.
    apply andb_true_iff in Hitems as [_ Hitems].
    apply Forall_cons; split; [done|]. apply Forall_cons; split.
    + by rewrite !no_newline_app, Hn, Hk.
    + apply Forall_map, Forall_forall. intros kv Hin.
      apply item_line_no_newline.
      rewrite forallb_forall in Hitems. apply Hitems.
      by apply list_elem_of_In.
Qed.

Lemma data_lines_no_newline data :
  forallb (λ sv, loadable_section (fst sv) && loadable_entries (snd sv)) data
  = true →
  Forall (λ b, no_newline b = true) (data_lines data).
Proof.
  intros Hd. unfold data_lines. apply Forall_concat, Forall_map, Forall_forall.
  intros [n entries] Hin. rewrite forallb_forall in Hd.
  apply list_elem_of_In, Hd in Hin. cbn [fst snd] in Hin.
  apply andb_true_iff in Hin as [Hn He].
  unfold loadable_section in Hn. apply andb_true_iff in Hn as [_ Hn].
  unfold loadable_entries in He. apply andb_true_iff in He as [_ He].
  unfold section_lines. cbn [fst snd].
  apply Forall_cons; split; [by rewrite !no_newline_app, Hn|].
  apply Forall_app; split; [|by apply Forall_singleton].
  apply Forall_concat, Forall_map, Forall_forall. intros kv Hkv.
  apply entry_lines_no_newline; [done|].
  rewrite forallb_forall in He. by apply He, list_elem_of_In.
Qed.

(** X12. A dictionary of sections whose keys are distinct, whose
    strings come before their tables, and whose names and values are
    plain enough to be read back from a line, is what
    [simple_toml_load] returns from the text [simple_toml_dump] writes
    for it. *)
Theorem dump_then_load data :
  loadable data = true →
  simple_toml_load (simple_toml_dump (dump_view data)) = Return data.
Proof.
  intros Hl. pose proof (rebuilt_data_id data Hl) as Hid.
  unfold loadable in Hl. apply andb_true_iff in Hl as [_ Hl].
  unfold simple_toml_load.
  rewrite dump_lines, split_bodies by by apply data_lines_no_newline.
  rewrite load_lines_app. unfold Loader.init.
  destruct (load_data data [] None None Hl) as (cs & cn & ->).
  cbn [bind Loader.load_lines]. rewrite load_empty_line.
  cbn [bind Loader.data]. by rewrite Hid.
Qed.

Lemma dump_then_load_witness :
  loadable demo_dictionary = true
  ∧ simple_toml_load (simple_toml_dump (dump_view demo_dictionary))
    = Return demo_dictionary.
Proof.
  split; [by vm_compute|]. apply (dump_then_load demo_dictionary).
  by vm_compute.
Defined.

Lemma config_dump_view theme :
  simple_toml_dump (config_dict theme)
  = simple_toml_dump (dump_view (reloaded_config theme)).
Proof.
  unfold simple_toml_dump, config_dict, dump_view, reloaded_config,
    Dump.section_text.
  cbn [map fst snd PyStr.writelines Dump.entry_text Dump.scalar_line
       dump_value].
  rewrite !map_app, !writelines_app.
  cbn [map fst snd PyStr.writelines Dump.scalar_line].
  by rewrite !str_app_assoc, !str_app_nil_r.
Qed.

(** X13. [simple_toml_load] does not give back the configuration
    [simple_toml_dump] was handed by the program: background and
    foreground, written after the [[theme.colors]] header, are loaded
    as the last two entries of the table [colors], and the section
    [theme] keeps the keys name, source and colors only. *)
Theorem generated_config_reloaded (theme : Theme.t string) :
  loadable_value (Theme.name theme) = true →
  loadable_value (Theme.source theme) = true →
  loadable_items (Theme.colors theme
                  ++ [("background", Theme.background theme);
                      ("foreground", Theme.foreground theme)]) = true →
  simple_toml_load (simple_toml_dump (config_dict theme))
  = Return (reloaded_config theme).
Proof.
  intros Hname Hsource Hitems.
  assert (loadable (reloaded_config theme) = true) as Hl.
  { unfold loadable, reloaded_config, loadable_entries, loadable_entry.
    cbn [map fst snd forallb strings_first is_table].
    rewrite Hname, Hsource, Hitems. by vm_compute. }
  pose proof (rebuilt_data_id _ Hl) as Hid.
  unfold loadable in Hl. apply andb_true_iff in Hl as [_ Hl].
  rewrite config_dump_view. unfold simple_toml_load.
  rewrite dump_lines, split_bodies by by apply data_lines_no_newline.
  rewrite load_lines_app. unfold Loader.init.
  destruct (load_data (reloaded_config theme) [] None None Hl)
    as (cs & cn & ->).
  cbn [bind Loader.load_lines]. rewrite load_empty_line.
  cbn [bind Loader.data]. by rewrite Hid.
Qed.

Lemma generated_config_reloaded_witness :
  simple_toml_load
    (simple_toml_dump (config_dict (generate_navitone_config demo_palette)))
  = Return (reloaded_config (generate_navitone_config demo_palette)).
Proof.
  apply (generated_config_reloaded (generate_navitone_config demo_palette));
    by vm_compute.
Defined.

(** ** Background and foreground of the structured path *)

(** X14.  In the structured path [colors.primary] takes precedence:
    when it is a mapping, background and foreground are read from it
    alone, a missing key giving [#000000] and [#ffffff] respectively
    and independently, whatever [apps.alacritty] holds.  The mapping
    [apps.alacritty.colors.primary] is read, in the same way, only when
    [colors.primary] is not there. *)
Theorem primary_grounds_take_precedence td :
  (∀ fields,
     submapping td "colors" "primary" = Some (JObj fields) →
     structured_grounds td
     = Return (default (JStr "#000000") (Json.assoc "background" fields),
               default (JStr "#ffffff") (Json.assoc "foreground" fields)))
  ∧ (∀ al fields,
       lacks_submapping td "colors" "primary" = true →
       submapping td "apps" "alacritty" = Some al →
       submapping al "colors" "primary" = Some (JObj fields) →
       structured_grounds td
       = Return (default (JStr "#000000") (Json.assoc "background" fields),
                 default (JStr "#ffffff") (Json.assoc "foreground" fields))).
Proof.
  split.
  - intros fields Hs.
    destruct (has_path_submapping _ _ _ _ Hs) as [Hp Hg].
    unfold structured_grounds. rewrite Hp. simpl.
    destruct (Json.getitem td "colors") as [c|]; simpl in *; [|done].
    by rewrite Hg.
  - intros al fields Hl Ha Hn.
    destruct (has_path_submapping _ _ _ _ Ha) as [Hp Hg].
    destruct (has_path_submapping _ _ _ _ Hn) as [_ Hg'].
    unfold structured_grounds. rewrite (has_path_lacks _ _ _ Hl). simpl.
    rewrite Hp. simpl.
    destruct (Json.getitem td "apps") as [x|]; simpl in *; [|done].
    rewrite Hg. simpl.
    destruct (Json.getitem al "colors") as [z|]; simpl in *; [|done].
    by rewrite Hg'.
Qed.

(** X15.  The roles found under [colors.terminal] are lost when the
    lookup of background and foreground raises [KeyError]: with no
    [colors.primary] and an [apps.alacritty] mapping without
    [colors.primary], the structured path gives no data although the 6
    roles were read, and the outcome is that of the fallback on
    [alacritty.toml]. *)
Theorem found_roles_discarded name td toml fields al :
  submapping td "colors" "terminal" = Some (JObj fields) →
  lacks_submapping td "colors" "primary" = true →
  submapping td "apps" "alacritty" = Some al →
  lacks_submapping al "colors" "primary" = true →
  structured_colors td = Return (roles_from fields)
  ∧ structured_extract name td = Raise KeyError
  ∧ extract_theme_colors name (JsonParsed td) toml = toml_fallback name toml.
Proof.
  intros Ht Hl Ha Hn.
  destruct (has_path_submapping _ _ _ _ Ht) as [Hpt Hgt].
  destruct (has_path_submapping _ _ _ _ Ha) as [Hpa Hga].
  assert (structured_colors td = Return (roles_from fields)) as Hc.
  { unfold structured_colors. rewrite Hpt. simpl.
    destruct (Json.getitem td "colors") as [c|]; simpl in *; [|done].
    by rewrite Hgt. }
  assert (structured_extract name td = Raise KeyError) as He.
  { unfold structured_extract. rewrite Hc. simpl.
    unfold structured_grounds. rewrite (has_path_lacks _ _ _ Hl). simpl.
    rewrite Hpa. simpl.
    destruct (Json.getitem td "apps") as [x|]; simpl in *; [|done].
    rewrite Hga. simpl.
    destruct al as [| | | | |afields]; try discriminate. simpl in *.
    destruct (Json.assoc "colors" afields) as [[| | | | |sub]|];
      try discriminate; simpl; [|done].
    apply bool_decide_eq_true in Hn. by rewrite Hn. }
  split_and!; [done|done|]. simpl. by rewrite He.
Qed.

Lemma found_roles_discarded_witness :
  extract_theme_colors "t"
    (JsonParsed (JObj
       [("colors", JObj [("terminal", JObj [("blue", JStr "#0000ff")])]);
        ("apps", JObj [("alacritty", JObj [])])]))
    Missing
  = Return None.
Proof.
  apply (found_roles_discarded "t" _ Missing [("blue", JStr "#0000ff")]
           (JObj [])); reflexivity.
Defined.

(** ** Files without a colour section *)

(** X16.  [parse_toml_colors] stores nothing from a file in which no
    line begins, once trimmed, with [[colors.]: colours given by dotted
    keys or inline tables under another header are not read, and both
    maps are empty. *)
Theorem colors_outside_sections_ignored content :
  Forall (λ l, PyStr.startswith (PyStr.strip l) "[colors." = false)
         (PyStr.split Chr.nl content) →
  parse_toml_colors (Content content) = (∅, ∅).
Proof.
  intros H. unfold parse_toml_colors, scan_file, scan_content.
  assert (foldl scan_line scan_init (PyStr.split Chr.nl content) = scan_init)
    as ->; [|done].
  induction H as [|l ls Hl _ IH]; [done|].
  cbn [foldl]. by rewrite scan_line_init.
Qed.

Lemma colors_outside_sections_ignored_witness :
  parse_toml_colors
    (Content ("[colors]" +:+ NL +:+
              "primary.background = '#1e1e2e'" +:+ NL +:+
              "normal = { red = '#ff0000', blue = '#0000ff' }" +:+ NL +:+
              "colors.bright.red = '#ff5555'"))
  = (∅, ∅).
Proof.
  apply colors_outside_sections_ignored. vm_compute. repeat constructor.
Defined.
